(** * Load Generator Client: the two dashboard front ends

    A shallow embedding of the request loop, the rolling log and chart
    windows and the aggregate counters of the two React front ends of
    the repository:

    - [Dashboard]: the GET variant with pending log entries, a latency
      chart and a window of 200 (src/unnamed/part_001);
    - [Simple]: the POST variant that logs after settlement, with a
      window of 50 (src/frontend/src/App.tsx).

    JavaScript runs these programs on one thread.  An [async] function
    runs without interruption up to an [await], where it is suspended
    with its local variables, and is resumed by the event loop when the
    awaited promise settles.  A call of [sendRequest] is therefore
    modelled as a pure dispatch function that returns the suspended
    frame, and a pure settle function that takes the frame and the
    outcome of the promise.  Timer ticks, promise settlements and user
    gestures are the events of a step function on the whole page.

    React state is updated with functional updaters ([setStats(prev =>
    ...)]) only; React applies them in call order, each to the result
    of the previous one, so a setter is modelled as the application of
    its updater to the current state.

    Counters and latencies are JavaScript numbers that only ever hold
    integers; they are modelled as [Z], which is exact below 2^53.
    The readings of [performance.now()] are taken as the rationals
    they denote, and their difference exactly.  The derived metrics
    divide and multiply; there the numbers are IEEE 754 binary64
    values ([SpecFloat]).

    The server that the front ends call is embedded in [Backend]: the
    opening of the database at start (src/unnamed/part_000), and the
    routes of [main] with the check of the database connection before
    the sample handlers (src/app/src/main.go). *)

From Stdlib Require Import ZArith QArith Qround Qpower Lqa String Ascii DecimalString.
From Stdlib Require Import Sorted.
From Stdlib Require Import Floats.SpecFloat.
From stdpp Require Import base list strings gmap.

Local Open Scope string_scope.
Local Open Scope list_scope.
Local Open Scope Z_scope.

(** ** The JavaScript and DOM values the programs use *)

Module JS.

(** A thrown value, as far as [error instanceof Error ? error.message
    : ...] can tell thrown values apart. *)
Inductive exn :=
| ErrorObj (message : string)
| NonError.

(** [arr.slice(start)]: a negative [start] counts from the end; the
    start index is clamped to the array. *)
Definition slice {A} (start : Z) (arr : list A) : list A :=
  let len := Z.of_nat (length arr) in
  let k := if start <? 0 then Z.max (len + start) 0 else Z.min start len in
  drop (Z.to_nat k) arr.

(** An integer in a template literal. *)
Definition show (n : Z) : string := NilZero.string_of_int (Z.to_int n).

(** [x || d] on the result of [parseInt]: [NaN] and [0] are falsy. *)
Definition or_default (x : option Z) (d : Z) : Z :=
  match x with
  | Some v => if v =? 0 then d else v
  | None => d
  end.

(** *** Numbers in the derived metrics

    A JavaScript number is an IEEE 754 binary64 value; [/] and [*]
    round to nearest, ties to even.  A counter of the model enters
    the arithmetic as the number nearest to it, which is the counter
    itself below 2^53. *)
Definition number (z : Z) : spec_float := binary_normalize 53 1024 z 0 false.
Definition div (x y : spec_float) : spec_float := SFdiv 53 1024 x y.
Definition mul (x y : spec_float) : spec_float := SFmul 53 1024 x y.

(** [performance.now()] gives such a number, and [-] on two of them
    rounds their difference like [/] and [*]. *)
Definition sub (x y : spec_float) : spec_float := SFsub 53 1024 x y.

(** [Math.round]: the integer nearest to the number, the larger one
    of two that are equally near.  (Of a number that is not finite
    [Math.round] returns the number itself; a difference of two clock
    readings is finite, and the model gives 0 there.) *)
Definition Math_round (x : spec_float) : Z :=
  match x with
  | S754_finite s m e =>
      let n := if s then Z.neg m else Z.pos m in
      if 0 <=? e then n * 2 ^ e else (2 * n + 2 ^ (- e)) / 2 ^ (1 - e)
  | _ => 0
  end.

(** The integer part of [m * 2^e]. *)
Definition integer_part (m : positive) (e : Z) : Z :=
  if 0 <=? e then Z.pos m * 2 ^ e else Z.pos m / 2 ^ (- e).

(** The integer [n] for which [n / 10^f - m * 2^e] is as close to
    zero as possible, the larger one if there are two. *)
Definition scaled (f : nat) (m : positive) (e : Z) : Z :=
  if 0 <=? e then Z.pos m * 2 ^ e * 10 ^ Z.of_nat f
  else (2 * Z.pos m * 10 ^ Z.of_nat f + 2 ^ (- e)) / 2 ^ (1 - e).

Definition digit (d : Z) : ascii := ascii_of_nat (48 + Z.to_nat d).

(** The last [f] decimal digits of [r], with leading zeros. *)
Fixpoint fraction_digits (f : nat) (r : Z) : string :=
  match f with
  | O => ""
  | S k => String (digit (r / 10 ^ Z.of_nat k mod 10)) (fraction_digits k r)
  end.

(** The decimal digits of [n], at least [f + 1] of them, with a point
    before the last [f]. *)
Definition fixed (f : nat) (n : Z) : string :=
  match f with
  | O => show n
  | S _ => show (n / 10 ^ Z.of_nat f) +:+ "." +:+ fraction_digits f (n mod 10 ^ Z.of_nat f)
  end.

Section toFixed.

(** [Number::toString] of a finite number that is at least 10^21
    (exponential notation), which is all that [toFixed] needs of it
    beyond the names of the values that are not finite. *)
Variable exponential : positive → Z → string.

(** [x.toFixed(f)] *)
Definition toFixed (f : nat) (x : spec_float) : string :=
  match x with
  | S754_nan => "NaN"
  | S754_infinity s => if s then "-Infinity" else "Infinity"
  | S754_zero _ => fixed f 0
  | S754_finite s m e =>
      (if s then "-" else "")
      +:+ (if 10 ^ 21 <=? integer_part m e then exponential m e
           else fixed f (scaled f m e))
  end.

End toFixed.

(** The rational [m * 2^e], and what ECMAScript asks of the integer
    that [toFixed] prints: it is nearest to the scaled number, and the
    larger one of two that are equally near. *)
Definition magnitude (m : positive) (e : Z) : Q :=
  match e with
  | Z0 => inject_Z (Z.pos m)
  | Zpos p => inject_Z (Z.pos m * 2 ^ Z.pos p)
  | Zneg p => Z.pos m # (2 ^ p)
  end.



(** A rational printed with two decimal places: the nearest number of
    hundredths, the larger one of two that are equally near. *)
Definition exact_two_places (q : Q) : string :=
  fixed 2 (Qfloor (q * 100 + (1 # 2))).

(** The rational that a number is (0 stands in for the numbers that
    are not finite), and the order of the numbers by it. *)
Definition value (x : spec_float) : Q :=
  match x with
  | S754_finite s m e => if s then (- magnitude m e)%Q else magnitude m e
  | _ => 0%Q
  end.

Definition le (x y : spec_float) : Prop := (value x <= value y)%Q.

End JS.

(** An integer literal where a number is expected, as in the source. *)
Coercion JS.number : Z >-> spec_float.

(** The [Response] of [fetch], as far as the programs read it. *)
Module Response.
Record t := mk { status : Z; statusText : string }.

(** [res.ok]: the status is in the range 200-299. *)
Definition ok (res : t) : bool := (200 <=? status res) && (status res <=? 299).
End Response.

(** How the promise of [fetch] settles. *)
Inductive FetchResult :=
| Resolved (res : Response.t)
| Rejected (error : JS.exn).

(** The catch blocks of both programs:
    [error instanceof Error ? error.message : "Network Error"]. *)
Definition catch_message (error : JS.exn) : string :=
  match error with
  | JS.ErrorObj message => message
  | JS.NonError => "Network Error"
  end.

(** * The dashboard variant (GET, pending entries, chart) *)

Module Dashboard.

Module Stat.
Record t := mk { total : Z; success : Z; error : Z; totalLatency : Z }.
End Stat.

Inductive Status := Success | Error | Pending.

Module Log.
Record t := mk {
  id : string;
  timestamp : string;
  startTime : Z;
  status : Status;
  statusCode : option Z;
  message : string;
  latency : option Z
}.
End Log.

Module ChartData.
Record t := mk { time : string; latency : Z }.
End ChartData.

Inductive ViewMode := dashboard | network.

(** The state hooks of [App]. *)
Record State := mkState {
  viewMode : ViewMode;
  intervalMs : Z;
  isRunning : bool;
  stats : Stat.t;
  logs : list Log.t;
  chartData : list ChartData.t
}.

Definition initial : State :=
  mkState dashboard 1000 false (Stat.mk 0 0 0 0) [] [].

Definition setViewMode (v : ViewMode) (s : State) : State :=
  mkState v (intervalMs s) (isRunning s) (stats s) (logs s) (chartData s).
Definition setIntervalMs (v : Z) (s : State) : State :=
  mkState (viewMode s) v (isRunning s) (stats s) (logs s) (chartData s).
Definition setIsRunning (v : bool) (s : State) : State :=
  mkState (viewMode s) (intervalMs s) v (stats s) (logs s) (chartData s).
Definition setStats (f : Stat.t → Stat.t) (s : State) : State :=
  mkState (viewMode s) (intervalMs s) (isRunning s) (f (stats s)) (logs s) (chartData s).
Definition setLogs (f : list Log.t → list Log.t) (s : State) : State :=
  mkState (viewMode s) (intervalMs s) (isRunning s) (stats s) (f (logs s)) (chartData s).
Definition setChartData (f : list ChartData.t → list ChartData.t) (s : State) : State :=
  mkState (viewMode s) (intervalMs s) (isRunning s) (stats s) (logs s) (f (chartData s)).

(** The locals of a call of [sendRequest] suspended at [await fetch]. *)
Record Frame := mkFrame {
  requestId : string;
  startTime : spec_float;
  startTimeDate : Z;
  timestamp : string
}.

(** [sendRequest] up to [await fetch].  The arguments are the values
    of [crypto.randomUUID()], [performance.now()], [Date.now()] and
    [new Date().toLocaleTimeString()]. *)
Definition sendRequest_dispatch
    (requestId : string) (startTime : spec_float) (startTimeDate : Z) (timestamp : string)
    (s : State) : State * Frame :=
  let pendingLog :=
    Log.mk requestId timestamp startTimeDate Pending None "Pending..." None in
  (setLogs (λ prev, let newLogs := prev ++ [pendingLog] in JS.slice (-200) newLogs) s,
   mkFrame requestId startTime startTimeDate timestamp).

(** The two updaters of [stats]. *)
Definition count_success (latency : Z) (prev : Stat.t) : Stat.t :=
  Stat.mk (Stat.total prev + 1) (Stat.success prev + 1) (Stat.error prev)
          (Stat.totalLatency prev + latency).
Definition count_error (latency : Z) (prev : Stat.t) : Stat.t :=
  Stat.mk (Stat.total prev + 1) (Stat.success prev) (Stat.error prev + 1)
          (Stat.totalLatency prev + latency).

(** [{ ...log, status, statusCode, message, latency }] *)
Definition settled (status : Status) (statusCode : Z) (message : string)
    (latency : Z) (log : Log.t) : Log.t :=
  Log.mk (Log.id log) (Log.timestamp log) (Log.startTime log)
         status (Some statusCode) message (Some latency).

(** [prev.map(log => log.id === requestId ? {...} : log)] *)
Definition update_log (requestId : string) (upd : Log.t → Log.t)
    (prev : list Log.t) : list Log.t :=
  (λ log, if decide (Log.id log = requestId) then upd log else log) <$> prev.

(** [sendRequest] from the settlement of [fetch] to its end;
    [endTime] is the value of [performance.now()] then. *)
Definition sendRequest_settle (fr : Frame) (r : FetchResult) (endTime : spec_float)
    (s : State) : State :=
  match r with
  | Resolved res =>
      let statusCode := Response.status res in
      let latency := JS.Math_round (JS.sub endTime (startTime fr)) in
      let s := setChartData (λ prev,
                 let newData := prev ++ [ChartData.mk (timestamp fr) latency] in
                 JS.slice (-200) newData) s in
      let '(status, s) :=
        if Response.ok res
        then (Success, setStats (count_success latency) s)
        else (Error, setStats (count_error latency) s) in
      setLogs (update_log (requestId fr)
                 (settled status statusCode
                    (if Response.ok res then "Success"
                     else "Status: " +:+ JS.show (Response.status res) +:+ " "
                          +:+ Response.statusText res)
                    latency)) s
  | Rejected error =>
      let latency := JS.Math_round (JS.sub endTime (startTime fr)) in
      let s := setStats (count_error latency) s in
      setLogs (update_log (requestId fr)
                 (settled Error 0 (catch_message error) latency)) s
  end.

Definition toggleRunning (s : State) : State := setIsRunning (negb (isRunning s)) s.

Definition resetStats (s : State) : State :=
  setChartData (λ _, []) (setLogs (λ _, []) (setStats (λ _, Stat.mk 0 0 0 0) s)).

(** The derived metrics, computed at every render. *)
Definition errorRate (exponential : positive → Z → string) (stats : Stat.t) : string :=
  if 0 <? Stat.total stats
  then JS.toFixed exponential 2
         (JS.mul (JS.div (JS.number (Stat.error stats)) (JS.number (Stat.total stats)))
                 (JS.number 100))
  else "0.00".

Definition avgLatency (exponential : positive → Z → string) (stats : Stat.t) : string :=
  if 0 <? Stat.total stats
  then JS.toFixed exponential 2
         (JS.div (JS.number (Stat.totalLatency stats)) (JS.number (Stat.total stats)))
  else "0.00".

(** The derived metrics in the words of the specification: the exact
    quotients, printed with two decimal places. *)
Definition errorRate_exact (stats : Stat.t) : string :=
  if Stat.total stats =? 0 then "0.00"
  else JS.exact_two_places
         (inject_Z (Stat.error stats) / inject_Z (Stat.total stats) * 100).

Definition avgLatency_exact (stats : Stat.t) : string :=
  if Stat.total stats =? 0 then "0.00"
  else JS.exact_two_places
         (inject_Z (Stat.totalLatency stats) / inject_Z (Stat.total stats)).

(** *** The controls of the page

    The interval input and the reset button carry
    [disabled={isRunning}]; a disabled control delivers no event to
    its handler. *)

Inductive Control :=
| DashboardTab | NetworkTab | IntervalInput | StartStopButton | ResetButton.

Definition disabled (s : State) (c : Control) : bool :=
  match c with
  | IntervalInput | ResetButton => isRunning s
  | DashboardTab | NetworkTab | StartStopButton => false
  end.

(** A gesture of the user: a click, or an edit of the interval input
    whose text [parseInt] reads as [parsed] ([None] for [NaN]). *)
Inductive Gesture :=
| Click (c : Control)
| Edit (parsed : option Z).

Definition target (g : Gesture) : Control :=
  match g with
  | Click c => c
  | Edit _ => IntervalInput
  end.

Definition handler (g : Gesture) (s : State) : State :=
  match g with
  | Click DashboardTab => setViewMode dashboard s
  | Click NetworkTab => setViewMode network s
  | Click StartStopButton => toggleRunning s
  | Click ResetButton => resetStats s
  | Click IntervalInput => s
  | Edit parsed => setIntervalMs (JS.or_default parsed 100) s
  end.

Definition gesture (g : Gesture) (s : State) : State :=
  if disabled s (target g) then s else handler g s.

(** *** The page and its event loop

    [inflight] holds the suspended calls of [sendRequest] by request
    id, [issued] the ids [crypto.randomUUID()] has returned so far.
    The interval timer exists only while [isRunning] holds (the
    effect clears it otherwise), and [crypto.randomUUID()] never
    returns the same id twice. *)

Record World := mkWorld {
  page : State;
  inflight : gmap string Frame;
  issued : gset string
}.

Inductive Event :=
| Tick (requestId : string) (now : spec_float) (date : Z) (time : string)
| Settle (requestId : string) (r : FetchResult) (now : spec_float)
| User (g : Gesture).

Definition step (w : World) (e : Event) : option World :=
  match e with
  | Tick requestId now date time =>
      if isRunning (page w) && bool_decide (requestId ∉ issued w) then
        let '(s, fr) := sendRequest_dispatch requestId now date time (page w) in
        Some (mkWorld s (<[requestId := fr]> (inflight w)) ({[requestId]} ∪ issued w))
      else None
  | Settle requestId r now =>
      match inflight w !! requestId with
      | Some fr =>
          Some (mkWorld (sendRequest_settle fr r now (page w))
                        (delete requestId (inflight w)) (issued w))
      | None => None
      end
  | User g => Some (mkWorld (gesture g (page w)) (inflight w) (issued w))
  end.

Fixpoint run (w : World) (tr : list Event) : option World :=
  match tr with
  | [] => Some w
  | e :: tr => match step w e with Some w' => run w' tr | None => None end
  end.

Definition start : World := mkWorld initial ∅ ∅.

Definition reachable (w : World) : Prop := ∃ tr, run start tr = Some w.

(** *** What the specification says of a settlement

    The classification of an outcome in the words of the
    specification: success for a response in the ok range, error for
    every other response and for a transport failure. *)
Definition classify (r : FetchResult) : Status :=
  match r with
  | Resolved res => if Response.ok res then Success else Error
  | Rejected _ => Error
  end.

(** The terminal entry that the specification expects for a request:
    the entry keeps its id, timestamp and start time, and records the
    classification of the outcome, the status code (zero for a
    transport failure), the message, and the latency of this request,
    measured from its own start. *)
Definition code_of (r : FetchResult) : Z :=
  match r with
  | Resolved res => Response.status res
  | Rejected _ => 0
  end.

Definition message_of (r : FetchResult) : string :=
  match r with
  | Resolved res =>
      if Response.ok res then "Success"
      else "Status: " +:+ JS.show (Response.status res) +:+ " "
           +:+ Response.statusText res
  | Rejected error => catch_message error
  end.

Definition final_entry (rid time : string) (date : Z) (startTime : spec_float)
    (r : FetchResult) (endTime : spec_float) : Log.t :=
  Log.mk rid time date (classify r) (Some (code_of r)) (message_of r)
         (Some (JS.Math_round (JS.sub endTime startTime))).

(** One for a success, zero for an error. *)
Definition succeeded (r : FetchResult) : Z :=
  match classify r with Success => 1 | _ => 0 end.

Definition balanced (st : Stat.t) : Prop :=
  Stat.total st = Stat.success st + Stat.error st.

(** The request that an event settles. *)
Definition settles (e : Event) : option string :=
  match e with
  | Settle rid _ _ => Some rid
  | _ => None
  end.

(** Two pages that differ at most in the chart, the view and the
    interval. *)
Record agree (w v : World) : Prop := mkAgree {
  agree_running : isRunning (page w) = isRunning (page v);
  agree_stats : stats (page w) = stats (page v);
  agree_logs : logs (page w) = logs (page v);
  agree_inflight : inflight w = inflight v;
  agree_issued : issued w = issued v
}.

(** *** What the page shows of the log and the counters *)

#[global] Instance Status_eq_dec : EqDecision Status.
Proof. solve_decision. Defined.

(** The toolbar of the network view:
    [logs.filter((l) => l.status === "pending").length]. *)
Definition pendingCount (logs : list Log.t) : nat :=
  length (filter (λ l, Log.status l = Pending) logs).

(** The status cell of a row of the network view:
    [log.status === "pending" ? "Pending"
     : log.statusCode || (log.status === "error" ? "ERR" : "")].
    An absent status code and the status code zero are falsy. *)
Definition statusCell (log : Log.t) : string :=
  match Log.status log with
  | Pending => "Pending"
  | status =>
      let fallback := match status with Error => "ERR" | _ => "" end in
      match Log.statusCode log with
      | Some code => if code =? 0 then fallback else JS.show code
      | None => fallback
      end
  end.

(** The time cell of a row of the network view, and the latency of a
    row of the request log:
    [log.latency !== undefined ? `${log.latency} ms` : "..."]. *)
Definition timeCell (log : Log.t) : string :=
  match Log.latency log with
  | Some latency => JS.show latency +:+ " ms"
  | None => "..."
  end.

Definition rowLatency (log : Log.t) : string :=
  match Log.latency log with
  | Some latency => JS.show latency +:+ "ms"
  | None => "..."
  end.

(** The toolbar of the network view: [stats.totalLatency.toFixed(0)]. *)
Definition totalLatencyText (exponential : positive → Z → string)
    (stats : Stat.t) : string :=
  JS.toFixed exponential 0 (JS.number (Stat.totalLatency stats)).

(** *** Reading a run

    What a run adds to the counters, read off its events: a settlement
    counts once, as a success or as an error. *)
Definition successes (tr : list Event) : Z :=
  foldr (λ e n, match e with Settle _ r _ => succeeded r + n | _ => n end) 0 tr.

Definition errors (tr : list Event) : Z :=
  foldr (λ e n, match e with Settle _ r _ => (1 - succeeded r) + n | _ => n end) 0 tr.

Definition is_reset (e : Event) : bool :=
  match e with
  | User (Click ResetButton) => true
  | _ => false
  end.

(** The pending entry of the request that a tick dispatches. *)
Definition dispatched (e : Event) : list Log.t :=
  match e with
  | Tick rid now date time => [Log.mk rid time date Pending None "Pending..." None]
  | _ => []
  end.

(** The entries of the log that are settled. *)
Definition settledCount (logs : list Log.t) : nat :=
  length (filter (λ l, Log.status l ≠ Pending) logs).

(** The counters account for what the page shows: no more settled
    entries and no more chart points than requests counted. *)
Definition accounted (s : State) : Prop :=
  Z.of_nat (settledCount (logs s)) ≤ Stat.total (stats s)
  ∧ Z.of_nat (length (chartData s)) ≤ Stat.total (stats s)
  ∧ 0 ≤ Stat.success (stats s) ∧ 0 ≤ Stat.error (stats s).

(** The fields of an entry agree with its status. *)
Definition consistent (l : Log.t) : Prop :=
  match Log.status l with
  | Pending =>
      Log.statusCode l = None ∧ Log.latency l = None
      ∧ Log.message l = "Pending..."
  | Success =>
      (∃ code, Log.statusCode l = Some code ∧ 200 ≤ code ≤ 299)
      ∧ is_Some (Log.latency l) ∧ Log.message l = "Success"
  | Error =>
      (∃ code, Log.statusCode l = Some code ∧ ¬ (200 ≤ code ≤ 299))
      ∧ is_Some (Log.latency l)
  end.



(** The readings of [performance.now()] that an event carries. *)
Definition reading (e : Event) : list spec_float :=
  match e with
  | Tick _ now _ _ => [now]
  | Settle _ _ now => [now]
  | User _ => []
  end.

(** No latency that the page holds is negative. *)
Definition latencies_nonneg (s : State) : Prop :=
  0 ≤ Stat.totalLatency (stats s)
  ∧ Forall (λ l, ∀ latency, Log.latency l = Some latency → 0 ≤ latency) (logs s)
  ∧ Forall (λ p, 0 ≤ ChartData.latency p) (chartData s).

(** The invariant of the page: the counters balance, the windows are
    capped, the ids in the log are distinct and were issued, every
    suspended call is filed under its own id, and an entry is pending
    exactly while its call is suspended. *)
Record wf (w : World) : Prop := mkWf {
  wf_balanced : balanced (stats (page w));
  wf_logs_cap : (length (logs (page w)) ≤ 200)%nat;
  wf_chart_cap : (length (chartData (page w)) ≤ 200)%nat;
  wf_ids_nodup : NoDup (Log.id <$> logs (page w));
  wf_ids_issued : ∀ l, l ∈ logs (page w) → Log.id l ∈ issued w;
  wf_inflight : ∀ rid fr,
    inflight w !! rid = Some fr → rid ∈ issued w ∧ requestId fr = rid;
  wf_pending : ∀ l, l ∈ logs (page w) →
    Log.status l = Pending ↔ is_Some (inflight w !! Log.id l)
}.

End Dashboard.

(** * The simple variant (POST, logs after settlement) *)

Module Simple.

Module Stat.
Record t := mk { total : Z; success : Z; error : Z }.
End Stat.

Inductive Status := Success | Error.

Module Log.
Record t := mk {
  id : string;
  timestamp : string;
  status : Status;
  message : string;
  latency : Z
}.
End Log.

(** The state hooks of [App]. *)
Record State := mkState {
  intervalSec : Q;
  isRunning : bool;
  stats : Stat.t;
  logs : list Log.t
}.

Definition initial : State := mkState 1%Q false (Stat.mk 0 0 0) [].

Definition setIntervalSec (v : Q) (s : State) : State :=
  mkState v (isRunning s) (stats s) (logs s).
Definition setIsRunning (v : bool) (s : State) : State :=
  mkState (intervalSec s) v (stats s) (logs s).
Definition setStats (f : Stat.t → Stat.t) (s : State) : State :=
  mkState (intervalSec s) (isRunning s) (f (stats s)) (logs s).
Definition setLogs (f : list Log.t → list Log.t) (s : State) : State :=
  mkState (intervalSec s) (isRunning s) (stats s) (f (logs s)).

(** What [await res.json()] yields: the parsed body [data], of which
    the program reads [data.id] in a template literal, or a rejection.
    [JSON.parse] can return [null], and reading a property of [null]
    throws. *)
Inductive JsonData :=
| JNull
| JValue (id_text : string).

Inductive JsonResult :=
| Parsed (data : JsonData)
| ParseFailed (error : JS.exn).

(** The [TypeError] of [data.id] when [data] is [null] (the text is
    the one V8 gives). *)
Definition null_property_error : JS.exn :=
  JS.ErrorObj "Cannot read properties of null (reading 'id')".

(** The two updaters of [stats]. *)
Definition count_success (prev : Stat.t) : Stat.t :=
  Stat.mk (Stat.total prev + 1) (Stat.success prev + 1) (Stat.error prev).
Definition count_error (prev : Stat.t) : Stat.t :=
  Stat.mk (Stat.total prev + 1) (Stat.success prev) (Stat.error prev + 1).

(** [addLog(logData)]; [uuid] and [time] are the values of
    [crypto.randomUUID()] and [new Date().toLocaleTimeString()]. *)
Definition addLog (uuid time : string) (status : Status) (message : string)
    (latency : Z) (s : State) : State :=
  let newLog := Log.mk uuid time status message latency in
  setLogs (λ prev, let newLogs := prev ++ [newLog] in JS.slice (-50) newLogs) s.

(** The [catch] block; [endTime] is [performance.now()] read there. *)
Definition catch_block (startTime : spec_float) (error : JS.exn) (endTime : spec_float)
    (uuid time : string) (s : State) : State :=
  let s := setStats count_error s in
  addLog uuid time Error (catch_message error)
         (JS.Math_round (JS.sub endTime startTime)) s.

(** A call of [sendRequest] suspended at [await fetch(...)] or at
    [await res.json()], with the locals it still reads. *)
Inductive Suspended :=
| AwaitFetch (startTime : spec_float)
| AwaitJson (startTime : spec_float) (latency : Z).

(** [sendRequest] up to [await fetch]: it only reads the clock. *)
Definition sendRequest_dispatch (startTime : spec_float) : Suspended := AwaitFetch startTime.

(** [sendRequest] from the settlement of [fetch] to its end or to
    [await res.json()]. *)
Definition sendRequest_fetched (startTime : spec_float) (r : FetchResult) (now : spec_float)
    (uuid time : string) (s : State) : State * option Suspended :=
  match r with
  | Resolved res =>
      let endTime := now in
      let latency := JS.Math_round (JS.sub endTime startTime) in
      if Response.ok res then (s, Some (AwaitJson startTime latency))
      else
        let s := setStats count_error s in
        (addLog uuid time Error
           ("Status: " +:+ JS.show (Response.status res) +:+ " "
            +:+ Response.statusText res)
           latency s, None)
  | Rejected error => (catch_block startTime error now uuid time s, None)
  end.

(** [sendRequest] from the settlement of [res.json()] to its end.
    [setStats] has been called when [data.id] is evaluated. *)
Definition sendRequest_parsed (startTime : spec_float) (latency : Z) (j : JsonResult)
    (now : spec_float) (uuid time : string) (s : State) : State :=
  match j with
  | Parsed data =>
      let s := setStats count_success s in
      match data with
      | JValue id_text =>
          addLog uuid time Success
                 ("ID: " +:+ id_text +:+ " - Created successfully") latency s
      | JNull => catch_block startTime null_property_error now uuid time s
      end
  | ParseFailed error => catch_block startTime error now uuid time s
  end.

Definition toggleRunning (s : State) : State := setIsRunning (negb (isRunning s)) s.

Definition resetStats (s : State) : State :=
  setLogs (λ _, []) (setStats (λ _, Stat.mk 0 0 0) s).

(** The derived metric, computed at every render. *)
Definition errorRate (exponential : positive → Z → string) (stats : Stat.t) : string :=
  if 0 <? Stat.total stats
  then JS.toFixed exponential 2
         (JS.mul (JS.div (JS.number (Stat.error stats)) (JS.number (Stat.total stats)))
                 (JS.number 100))
  else "0.00".

(** *** The controls of the page *)

Inductive Control := IntervalInput | StartStopButton | ResetButton.

Definition disabled (s : State) (c : Control) : bool :=
  match c with
  | IntervalInput | ResetButton => isRunning s
  | StartStopButton => false
  end.

(** [parsed] is [parseFloat(e.target.value)], [None] for [NaN]. *)
Inductive Gesture :=
| Click (c : Control)
| Edit (parsed : option Q).

Definition target (g : Gesture) : Control :=
  match g with
  | Click c => c
  | Edit _ => IntervalInput
  end.

(** [parseFloat(e.target.value) || 1] *)
Definition or_one (parsed : option Q) : Q :=
  match parsed with
  | Some v => if Qeq_bool v 0 then 1%Q else v
  | None => 1%Q
  end.

Definition handler (g : Gesture) (s : State) : State :=
  match g with
  | Click StartStopButton => toggleRunning s
  | Click ResetButton => resetStats s
  | Click IntervalInput => s
  | Edit parsed => setIntervalSec (or_one parsed) s
  end.

Definition gesture (g : Gesture) (s : State) : State :=
  if disabled s (target g) then s else handler g s.

(** *** The page and its event loop

    The suspended calls are numbered in the order of their dispatch. *)

Record World := mkWorld {
  page : State;
  inflight : gmap nat Suspended;
  next : nat
}.

Inductive Event :=
| Tick (now : spec_float)
| FetchSettled (call : nat) (r : FetchResult) (now : spec_float) (uuid time : string)
| JsonSettled (call : nat) (j : JsonResult) (now : spec_float) (uuid time : string)
| User (g : Gesture).

Definition step (w : World) (e : Event) : option World :=
  match e with
  | Tick now =>
      if isRunning (page w) then
        Some (mkWorld (page w)
                (<[next w := sendRequest_dispatch now]> (inflight w)) (S (next w)))
      else None
  | FetchSettled call r now uuid time =>
      match inflight w !! call with
      | Some (AwaitFetch startTime) =>
          let '(s, k) := sendRequest_fetched startTime r now uuid time (page w) in
          Some (mkWorld s
                  (match k with
                   | Some k => <[call := k]> (inflight w)
                   | None => delete call (inflight w)
                   end) (next w))
      | _ => None
      end
  | JsonSettled call j now uuid time =>
      match inflight w !! call with
      | Some (AwaitJson startTime latency) =>
          Some (mkWorld (sendRequest_parsed startTime latency j now uuid time (page w))
                  (delete call (inflight w)) (next w))
      | _ => None
      end
  | User g => Some (mkWorld (gesture g (page w)) (inflight w) (next w))
  end.

Fixpoint run (w : World) (tr : list Event) : option World :=
  match tr with
  | [] => Some w
  | e :: tr => match step w e with Some w' => run w' tr | None => None end
  end.

Definition start : World := mkWorld initial ∅ 0%nat.

Definition reachable (w : World) : Prop := ∃ tr, run start tr = Some w.

Definition balanced (st : Stat.t) : Prop :=
  Stat.total st = Stat.success st + Stat.error st.

(** The invariant of the page. *)
Record wf (w : World) : Prop := mkWf {
  wf_counters : balanced (stats (page w));
  wf_window : (length (logs (page w)) ≤ 50)%nat
}.

(** *** Reading a run

    What a run adds to the counters and to the log, read off its
    events.  An ok response counts nothing yet; a parsed body counts a
    success, and a body that is [null] an error as well. *)
Definition successes (tr : list Event) : Z :=
  foldr (λ e n, match e with
                | JsonSettled _ (Parsed _) _ _ _ => 1 + n
                | _ => n
                end) 0 tr.

Definition errors (tr : list Event) : Z :=
  foldr (λ e n, match e with
                | FetchSettled _ (Resolved res) _ _ _ =>
                    if Response.ok res then n else 1 + n
                | FetchSettled _ (Rejected _) _ _ _ => 1 + n
                | JsonSettled _ (Parsed JNull) _ _ _ => 1 + n
                | JsonSettled _ (ParseFailed _) _ _ _ => 1 + n
                | _ => n
                end) 0 tr.

(** The events that end a call; each of them appends one entry. *)
Definition ends_call (e : Event) : bool :=
  match e with
  | FetchSettled _ (Resolved res) _ _ _ => negb (Response.ok res)
  | FetchSettled _ (Rejected _) _ _ _ => true
  | JsonSettled _ _ _ _ _ => true
  | _ => false
  end.


Definition appended (tr : list Event) : nat :=
  length (filter (λ e, ends_call e = true) tr).

Definition is_reset (e : Event) : bool :=
  match e with
  | User (Click ResetButton) => true
  | _ => false
  end.

(** *** How a call ends

    A call ends when its fetch is rejected or answered with a status
    outside the ok range, or, after an ok response, when the promise
    of the body settles. *)
Inductive Ending :=
| EndFetch (r : FetchResult) (now : spec_float) (uuid time : string)
| EndJson (res : Response.t) (now : spec_float)
          (j : JsonResult) (now' : spec_float) (uuid time : string).



Definition succeeded (o : Ending) : bool :=
  match o with
  | EndJson _ _ (Parsed _) _ _ _ => true
  | _ => false
  end.

(** The entry that the specification expects for a call that was
    dispatched at [startTime] and ends with [o]: the latency is taken
    at the response, and at the failure for a failure. *)
Definition final_entry (startTime : spec_float) (o : Ending) : Log.t :=
  match o with
  | EndFetch (Resolved res) now uuid time =>
      Log.mk uuid time Error
        ("Status: " +:+ JS.show (Response.status res) +:+ " "
         +:+ Response.statusText res)
        (JS.Math_round (JS.sub now startTime))
  | EndFetch (Rejected error) now uuid time =>
      Log.mk uuid time Error (catch_message error)
        (JS.Math_round (JS.sub now startTime))
  | EndJson _ now (Parsed (JValue id_text)) _ uuid time =>
      Log.mk uuid time Success ("ID: " +:+ id_text +:+ " - Created successfully")
        (JS.Math_round (JS.sub now startTime))
  | EndJson _ _ (Parsed JNull) now' uuid time =>
      Log.mk uuid time Error (catch_message null_property_error)
        (JS.Math_round (JS.sub now' startTime))
  | EndJson _ _ (ParseFailed error) now' uuid time =>
      Log.mk uuid time Error (catch_message error)
        (JS.Math_round (JS.sub now' startTime))
  end.





(** The counters account for the log: no more entries than requests
    counted. *)
Definition accounted (s : State) : Prop :=
  Z.of_nat (length (logs s)) ≤ Stat.total (stats s)
  ∧ 0 ≤ Stat.success (stats s) ∧ 0 ≤ Stat.error (stats s).

End Simple.

(** * The server (Go, echo and gorm)

    The program reads the environment, opens the database and asks a
    handle for its connection and the connection for a ping.  What
    these calls return is given by the environment; that the program
    makes them, in which order and with which result, is recorded as a
    list of effects
    beside the value a function returns. *)

Module Backend.

(** Values of [*gorm.DB] and [*sql.DB] that are not [nil]; a pointer
    that may be [nil] is an [option]. *)
Definition GormDB := nat.
Definition SqlDB := nat.

(** [slog.Level] *)
Inductive Level := LevelInfo | LevelWarn | LevelError.

(** The routes that [main] registers. *)
Inductive Route :=
| Root          (* GET /         : hello *)
| Hostname      (* GET /hostname : sampleController.GetHostname *)
| SampleGET     (* GET /sample   : sampleController.GetSample *)
| SamplePOST.   (* POST /sample  : sampleController.PostSample *)

Inductive Effect :=
| Slog (level : Level) (msg : string)
| GormOpen (dsn : string)
| AutoMigrate (db : GormDB)
| CallDB (db : GormDB) (returned : SqlDB + string)
| CallPing (sqlDB : SqlDB) (returned : option string)
| Run (handler : Route).

(** What starts the process: [os.Getenv], which gives the empty string
    for a variable that is not set; the pair [(db, err)] that
    [gorm.Open] returns; the error of [AutoMigrate], if any. *)
Record Env := mkEnv {
  Getenv : string → string;
  gorm_Open : string → option GormDB * option string;
  migrate : GormDB → option string
}.

(** The state of the database connection while one request is served:
    [db.DB.DB()] returns a connection or an error, [sqlDB.Ping()] an
    error or [nil]. *)
Record Conn := mkConn {
  DB_ : GormDB → SqlDB + string;
  Ping : SqlDB → option string
}.

Inductive Response :=
| JSON (code : Z) (body : list (string * string))
| Text (code : Z) (s : string)
| Controller (handler : Route).   (* written by a method of the controller *)

(** [db.Init()]; the argument is the package variable [DB], the
    result its value on return. *)
Definition Init (env : Env) (DB : option GormDB) : option GormDB * list Effect :=
  let dsn := Getenv env "DATABASE_URI" in
  if decide (dsn = "") then
    (DB, [Slog LevelError "DATABASE_URI environment variable is not set"])
  else
    let '(DB, err) := gorm_Open env dsn in
    match err with
    | Some _ => (DB, [GormOpen dsn; Slog LevelError "failed to connect database"])
    | None => (DB, [GormOpen dsn; Slog LevelInfo "connected to database"])
    end.

(** [main] up to the creation of the router. *)
Definition boot (env : Env) : option GormDB * list Effect :=
  let '(DB, fx) := Init env None in
  match DB with
  | Some db =>
      (DB, fx ++ AutoMigrate db ::
             match migrate env db with
             | Some _ => [Slog LevelError "failed to migrate database"]
             | None => []
             end)
  | None =>
      (DB, fx ++ [Slog LevelWarn
                    "skipping auto migration: database connection is not established"])
  end.

(** A handler: its response and what it did. *)
Definition Handler := (Response * list Effect)%type.

(** [dbCheckMiddleware(next)(c)]; [next] is run in the last branch
    only. *)
Definition dbCheckMiddleware (DB : option GormDB) (conn : Conn) (next : Handler)
    : Handler :=
  match DB with
  | None =>
      (JSON 500 [("error", "database connection is not established")], [])
  | Some db =>
      match DB_ conn db with
      | inr err =>
          (JSON 500 [("error", "failed to connect to database")],
           [CallDB db (inr err)])
      | inl sqlDB =>
          match Ping conn sqlDB with
          | Some err =>
              (JSON 500 [("error", "failed to connect to database")],
               [CallDB db (inl sqlDB); CallPing sqlDB (Some err)])
          | None =>
              (next.1, [CallDB db (inl sqlDB); CallPing sqlDB None] ++ next.2)
          end
      end
  end.

Definition hello : Handler := (Text 200 "Hello, World!", [Run Root]).

(** A method of [sampleController]. *)
Definition controller (r : Route) : Handler := (Controller r, [Run r]).

(** The routes: the group [/sample] uses [dbCheckMiddleware].  (The
    [Logger] and [Recover] middleware of echo wrap every route alike;
    they write the access log and act on a panic, and are left out.) *)
Definition guarded (r : Route) : bool :=
  match r with
  | SampleGET | SamplePOST => true
  | Root | Hostname => false
  end.

Definition serve (DB : option GormDB) (r : Route) (conn : Conn) : Handler :=
  match r with
  | Root => hello
  | Hostname => controller Hostname
  | SampleGET => dbCheckMiddleware DB conn (controller SampleGET)
  | SamplePOST => dbCheckMiddleware DB conn (controller SamplePOST)
  end.

(** The process: [main] and then the requests it serves, each with
    the state of the connection at its time. *)
Definition main (env : Env) (reqs : list (Route * Conn))
    : list Response * list Effect :=
  let '(DB, fx) := boot env in
  let served := (λ '(r, conn), serve DB r conn) <$> reqs in
  (fst <$> served, fx ++ mjoin (snd <$> served)).

(** The effects that reach the database, and the runs of the sample
    handlers. *)
Definition uses_database (e : Effect) : bool :=
  match e with
  | GormOpen _ | AutoMigrate _ | CallDB _ _ | CallPing _ _ => true
  | Run r => guarded r
  | Slog _ _ => false
  end.


End Backend.

(** * Properties *)

(** ** The rolling window [arr.slice(-cap)] *)

Section slice.
Context {A : Type}.
Implicit Types (l : list A) (x : A) (cap : nat).

Lemma slice_neg cap l :
  (0 < cap)%nat → JS.slice (- Z.of_nat cap) l = drop (length l - cap) l.
Proof.
  intros Hcap. unfold JS.slice.
  destruct (Z.ltb_spec (- Z.of_nat cap) 0) as [_|?]; [|lia].
  f_equal. lia.
Qed.

Lemma slice_suffix start l : JS.slice start l `suffix_of` l.
Proof. apply suffix_drop. Qed.

Lemma slice_sublist start l : JS.slice start l `sublist_of` l.
Proof. apply sublist_drop. Qed.

Lemma slice_neg_length cap l :
  (0 < cap)%nat → length (JS.slice (- Z.of_nat cap) l) = (length l `min` cap)%nat.
Proof. intros. rewrite slice_neg, length_drop by done. lia. Qed.

Lemma slice_neg_fits cap l :
  (0 < cap)%nat → (length l ≤ cap)%nat → JS.slice (- Z.of_nat cap) l = l.
Proof.
  intros. rewrite slice_neg by done.
  replace (length l - cap)%nat with 0%nat by lia. done.
Qed.

Lemma slice_neg_snoc_full cap l x :
  (0 < cap)%nat → length l = cap →
  JS.slice (- Z.of_nat cap) (l ++ [x]) = drop 1 l ++ [x].
Proof.
  intros. rewrite slice_neg, length_app by done. simpl.
  replace (length l + 1 - cap)%nat with 1%nat by lia.
  rewrite drop_app_le by lia. done.
Qed.

Lemma slice_neg_slice_app cap l k :
  (0 < cap)%nat →
  JS.slice (- Z.of_nat cap) (JS.slice (- Z.of_nat cap) l ++ k)
  = JS.slice (- Z.of_nat cap) (l ++ k).
Proof.
  intros. rewrite !slice_neg, !length_app, length_drop by done.
  rewrite <- (drop_app_le l k (length l - cap)) by lia.
  rewrite drop_drop. f_equal. lia.
Qed.


End slice.

(** ** The dashboard variant: what one call of [sendRequest] does *)

Section dashboard_calls.
Import Dashboard.
Implicit Types (s : State) (fr : Frame) (r : FetchResult) (w : World).

Lemma dispatch_page rid now date time s :
  (sendRequest_dispatch rid now date time s).1
  = setLogs (λ prev, JS.slice (-200)
               (prev ++ [Log.mk rid time date Pending None "Pending..." None])) s.
Proof. reflexivity. Qed.

Lemma settle_stats fr r endTime s :
  stats (sendRequest_settle fr r endTime s)
  = (if classify r is Success then count_success else count_error)
      (JS.Math_round (JS.sub endTime (startTime fr))) (stats s).
Proof. destruct r as [res|e]; simpl; [destruct (Response.ok res)|]; done. Qed.

Lemma settle_logs fr r endTime s :
  ∃ code text,
    logs (sendRequest_settle fr r endTime s)
    = update_log (requestId fr)
        (settled (classify r) code text (JS.Math_round (JS.sub endTime (startTime fr))))
        (logs s).
Proof.
  destruct r as [res|e]; simpl; [destruct (Response.ok res)|]; simpl; eauto.
Qed.

Lemma settle_chart_length fr r endTime s :
  (length (chartData s) ≤ 200)%nat →
  (length (chartData (sendRequest_settle fr r endTime s)) ≤ 200)%nat.
Proof.
  intros Hc. destruct r as [res|e]; simpl; [|done].
  assert (length (JS.slice (-200) (chartData s ++
            [ChartData.mk (timestamp fr) (JS.Math_round (JS.sub endTime (startTime fr)))]))
          ≤ 200)%nat.
  { change (-200) with (- Z.of_nat 200). rewrite slice_neg_length by lia. lia. }
  destruct (Response.ok res); done.
Qed.


Lemma update_log_length rid upd (l : list Log.t) :
  length (update_log rid upd l) = length l.
Proof. apply length_fmap. Qed.

Lemma update_log_ids rid upd (l : list Log.t) :
  (∀ log, Log.id (upd log) = Log.id log) →
  Log.id <$> update_log rid upd l = Log.id <$> l.
Proof.
  intros Hupd. unfold update_log. rewrite <- list_fmap_compose.
  apply list_fmap_ext. intros _ log _. simpl. case_decide; auto.
Qed.

Lemma update_log_absent rid upd (l : list Log.t) :
  rid ∉ Log.id <$> l → update_log rid upd l = l.
Proof.
  intros Hn. unfold update_log. rewrite <- (list_fmap_id l) at 2.
  apply list_fmap_ext. intros i log Hi. simpl.
  case_decide as Heq; [|done]. destruct Hn. subst rid.
  apply list_elem_of_fmap. eauto using list_elem_of_lookup_2.
Qed.

Lemma update_log_lookup rid upd (l : list Log.t) i log :
  l !! i = Some log →
  update_log rid upd l !! i
  = Some (if decide (Log.id log = rid) then upd log else log).
Proof. intros Hi. unfold update_log. by rewrite list_lookup_fmap, Hi. Qed.

End dashboard_calls.

(** ** The dashboard variant: the invariant of the page *)

Section dashboard_invariant.
Import Dashboard.
Implicit Types (s : State) (fr : Frame) (r : FetchResult) (w : World).

(** The invariant on a page with no entries. *)
Local Ltac empty_page :=
  first [ reflexivity | lia | done | apply NoDup_nil_2
        | by intros ? ?%elem_of_nil
        | by intros ? ?; rewrite lookup_empty ].

Lemma start_wf : wf start.
Proof.
  split; simpl; empty_page.
Qed.

Lemma tick_wf w rid now date time w' :
  wf w → step w (Tick rid now date time) = Some w' → wf w'.
Proof.
  intros [Hb Hl Hc Hnd Hiss Hfl Hp]. simpl.
  destruct (isRunning (page w)); simpl; [|done].
  case_bool_decide as Hfresh; [|done]. intros [= <-].
  set (p := Log.mk rid time date Pending None "Pending..." None).
  assert (Hsuf : JS.slice (-200) (logs (page w) ++ [p]) `suffix_of` logs (page w) ++ [p])
    by apply slice_suffix.
  assert (Hin : ∀ l, l ∈ JS.slice (-200) (logs (page w) ++ [p]) →
                     l ∈ logs (page w) ∨ l = p).
  { intros l Hin. destruct Hsuf as [k Hk].
    assert (l ∈ logs (page w) ++ [p]) as Hin'
      by (rewrite Hk; apply elem_of_app; by right).
    apply elem_of_app in Hin' as [?|Hin']; [by left|right].
    by apply list_elem_of_singleton in Hin'. }
  split; simpl.
  - done.
  - change (-200) with (- Z.of_nat 200). rewrite slice_neg_length by lia. lia.
  - done.
  - eapply sublist_NoDup; [|apply fmap_sublist, slice_sublist].
    rewrite fmap_app. apply NoDup_app. split; [done|]. split.
    + intros x Hx ->%list_elem_of_singleton.
      apply list_elem_of_fmap in Hx as (l & Hid & Hl'). simpl in Hid.
      apply Hfresh. rewrite Hid. by apply Hiss.
    + apply NoDup_singleton.
  - intros l [Hl'| ->]%Hin; apply elem_of_union;
      [right; by apply Hiss | left; by apply elem_of_singleton].
  - intros rid' fr [[<- <-]|[Hne Hlk]]%lookup_insert_Some.
    + split; [|done]. apply elem_of_union. left. by apply elem_of_singleton.
    + apply Hfl in Hlk as [? ?]. split; [|done]. apply elem_of_union. by right.
  - intros l [Hl'| ->]%Hin.
    + assert (Log.id l ≠ rid) by (intros <-; by apply Hfresh, Hiss).
      rewrite lookup_insert_ne by done. by apply Hp.
    + simpl. rewrite lookup_insert_eq. split; eauto.
Qed.

Lemma settle_wf w rid r now w' :
  wf w → step w (Settle rid r now) = Some w' → wf w'.
Proof.
  intros [Hb Hl Hc Hnd Hiss Hfl Hp]. simpl.
  destruct (inflight w !! rid) as [fr|] eqn:Hfr; [|done]. intros [= <-].
  destruct (Hfl _ _ Hfr) as [Hrid Hfrid].
  destruct (settle_logs fr r now (page w)) as (code & text & Hlogs).
  split; simpl.
  - rewrite settle_stats. unfold balanced in *.
    destruct (classify r); simpl; lia.
  - by rewrite Hlogs, update_log_length.
  - by apply settle_chart_length.
  - rewrite Hlogs, update_log_ids; done.
  - rewrite Hlogs. intros l' (l & -> & Hin)%list_elem_of_fmap.
    case_decide; simpl; by apply Hiss.
  - intros rid' fr' [Hne Hlk]%lookup_delete_Some. by apply Hfl.
  - rewrite Hlogs. intros l' (l & -> & Hin)%list_elem_of_fmap.
    case_decide as Heq; simpl.
    + rewrite Heq, Hfrid, lookup_delete_eq. split.
      * by destruct r as [res|e]; simpl; [destruct (Response.ok res)|].
      * by intros [? ?].
    + rewrite lookup_delete_ne by (by rewrite <- Hfrid). by apply Hp.
Qed.

Lemma gesture_cases g s :
  gesture g s = s
  ∨ (∃ v, gesture g s = setViewMode v s)
  ∨ (∃ v, gesture g s = setIntervalMs v s)
  ∨ gesture g s = toggleRunning s
  ∨ gesture g s = resetStats s.
Proof.
  unfold gesture. destruct (disabled s (target g)); [by left|].
  destruct g as [[]|parsed]; simpl; eauto 6.
Qed.

Lemma user_wf w g w' : wf w → step w (User g) = Some w' → wf w'.
Proof.
  intros [Hb Hl Hc Hnd Hiss Hfl Hp]. simpl. intros [= <-].
  destruct (gesture_cases g (page w)) as [->|[[v ->]|[[v ->]|[->| ->]]]];
    try (split; done).
  split; simpl; empty_page.
Qed.

Lemma step_wf w e w' : wf w → step w e = Some w' → wf w'.
Proof.
  destruct e; eauto using tick_wf, settle_wf, user_wf.
Qed.

Lemma run_wf tr : ∀ w w', wf w → run w tr = Some w' → wf w'.
Proof.
  induction tr as [|e tr IH]; simpl; intros w w' Hw Hrun.
  - by injection Hrun as <-.
  - destruct (step w e) as [w1|] eqn:Hstep; [|done].
    eauto using step_wf.
Qed.

Lemma reachable_wf w : reachable w → wf w.
Proof. intros [tr Htr]. eauto using run_wf, start_wf. Qed.

Lemma run_app w tr1 tr2 :
  run w (tr1 ++ tr2) = run w tr1 ≫= λ w1, run w1 tr2.
Proof.
  revert w. induction tr1 as [|e tr1 IH]; simpl; intros w; [done|].
  destruct (step w e); simpl; auto.
Qed.

End dashboard_invariant.

(** ** The simple variant: calls and invariant *)

Section simple_invariant.
Import Simple.
Implicit Types (s : State) (r : FetchResult) (j : JsonResult) (w : World).

Lemma addLog_stats uuid time status message latency s :
  stats (addLog uuid time status message latency s) = stats s.
Proof. reflexivity. Qed.

Lemma addLog_logs uuid time status message latency s :
  logs (addLog uuid time status message latency s)
  = JS.slice (-50) (logs s ++ [Log.mk uuid time status message latency]).
Proof. reflexivity. Qed.

Lemma addLog_length uuid time status message latency s :
  (length (logs (addLog uuid time status message latency s)) ≤ 50)%nat.
Proof.
  rewrite addLog_logs. change (-50) with (- Z.of_nat 50).
  rewrite slice_neg_length by lia. lia.
Qed.

Lemma catch_block_stats startTime error endTime uuid time s :
  stats (catch_block startTime error endTime uuid time s) = count_error (stats s).
Proof. reflexivity. Qed.

Lemma catch_block_logs startTime error endTime uuid time s :
  logs (catch_block startTime error endTime uuid time s)
  = JS.slice (-50) (logs s ++ [Log.mk uuid time Error (catch_message error)
                                  (JS.Math_round (JS.sub endTime startTime))]).
Proof. reflexivity. Qed.

Lemma count_success_balanced st : balanced st → balanced (count_success st).
Proof. unfold balanced. simpl. lia. Qed.

Lemma count_error_balanced st : balanced st → balanced (count_error st).
Proof. unfold balanced. simpl. lia. Qed.


Lemma parsed_wf startTime latency j now uuid time s :
  balanced (stats s) →
  let s' := sendRequest_parsed startTime latency j now uuid time s in
  balanced (stats s') ∧ (length (logs s') ≤ 50)%nat.
Proof.
  intros Hb. destruct j as [[|id_text]|e]; simpl;
    (split; [|apply addLog_length]);
    auto using count_error_balanced, count_success_balanced.
Qed.

Lemma gesture_cases_simple g s :
  gesture g s = s
  ∨ (∃ v, gesture g s = setIntervalSec v s)
  ∨ gesture g s = toggleRunning s
  ∨ gesture g s = resetStats s.
Proof.
  unfold gesture. destruct (disabled s (target g)); [by left|].
  destruct g as [[]|parsed]; simpl; eauto 6.
Qed.




End simple_invariant.

(** ** The counters balance *)

Section balance.

Lemma step_balanced_dashboard w e w' :
  Dashboard.balanced (Dashboard.stats (Dashboard.page w)) →
  Dashboard.step w e = Some w' →
  Dashboard.balanced (Dashboard.stats (Dashboard.page w')).
Proof.
  intros Hb. destruct e as [rid now date time|rid r now|g]; simpl.
  - destruct (Dashboard.isRunning (Dashboard.page w) && _); [|done].
    by intros [= <-].
  - destruct (Dashboard.inflight w !! rid) as [fr|]; [|done]. intros [= <-].
    simpl. rewrite settle_stats. unfold Dashboard.balanced in *.
    destruct (Dashboard.classify r); simpl; lia.
  - intros [= <-]. simpl.
    destruct (gesture_cases g (Dashboard.page w)) as [->|[[v ->]|[[v ->]|[->| ->]]]];
      done.
Qed.

Lemma run_balanced_dashboard tr : ∀ w w',
  Dashboard.balanced (Dashboard.stats (Dashboard.page w)) →
  Dashboard.run w tr = Some w' →
  Dashboard.balanced (Dashboard.stats (Dashboard.page w')).
Proof.
  induction tr as [|e tr IH]; simpl; intros w w' Hb Hrun.
  - by injection Hrun as <-.
  - destruct (Dashboard.step w e) as [w1|] eqn:Hstep; [|done].
    eauto using step_balanced_dashboard.
Qed.

Lemma step_balanced_simple w e w' :
  Simple.balanced (Simple.stats (Simple.page w)) →
  Simple.step w e = Some w' →
  Simple.balanced (Simple.stats (Simple.page w')).
Proof.
  intros Hb.
  destruct e as [now|call r now uuid time|call j now uuid time|g]; simpl.
  - destruct (Simple.isRunning (Simple.page w)); [|done]. by intros [= <-].
  - destruct (Simple.inflight w !! call) as [[startTime|startTime latency]|];
      try done.
    destruct r as [res|e]; simpl; [destruct (Response.ok res)|]; simpl;
      intros [= <-]; simpl; auto; by apply count_error_balanced.
  - destruct (Simple.inflight w !! call) as [[startTime|startTime latency]|];
      try done.
    intros [= <-].
    by destruct (parsed_wf startTime latency j now uuid time (Simple.page w)).
  - intros [= <-]. simpl.
    destruct (gesture_cases_simple g (Simple.page w)) as [->|[[v ->]|[->| ->]]];
      done.
Qed.

Lemma run_balanced_simple tr : ∀ w w',
  Simple.balanced (Simple.stats (Simple.page w)) →
  Simple.run w tr = Some w' →
  Simple.balanced (Simple.stats (Simple.page w')).
Proof.
  induction tr as [|e tr IH]; simpl; intros w w' Hb Hrun.
  - by injection Hrun as <-.
  - destruct (Simple.step w e) as [w1|] eqn:Hstep; [|done].
    eauto using step_balanced_simple.
Qed.

End balance.

(** C1.  In both variants [total = success + error] holds after every
    event of every run that starts from balanced counters, in
    particular from the initial page, whatever the order in which the
    requests settle.  A request that has not settled is in no counter:
    the dispatch of a request leaves the counters as they are, and so
    does, in the simple variant, the arrival of an ok response whose
    body is still awaited. *)
Theorem total_is_success_plus_error :
  (∀ w tr w',
     Dashboard.balanced (Dashboard.stats (Dashboard.page w)) →
     Dashboard.run w tr = Some w' →
     Dashboard.balanced (Dashboard.stats (Dashboard.page w')))
  ∧ Dashboard.balanced (Dashboard.stats (Dashboard.page Dashboard.start))
  ∧ (∀ rid now date time s,
       Dashboard.stats (Dashboard.sendRequest_dispatch rid now date time s).1
       = Dashboard.stats s)
  ∧ (∀ w tr w',
       Simple.balanced (Simple.stats (Simple.page w)) →
       Simple.run w tr = Some w' →
       Simple.balanced (Simple.stats (Simple.page w')))
  ∧ Simple.balanced (Simple.stats (Simple.page Simple.start))
  ∧ (∀ w now w',
       Simple.step w (Simple.Tick now) = Some w' → Simple.page w' = Simple.page w)
  ∧ (∀ startTime res now uuid time s,
       Response.ok res = true →
       (Simple.sendRequest_fetched startTime (Resolved res) now uuid time s).1 = s).
Proof.
  split; [intros w tr w'; apply run_balanced_dashboard|].
  split; [reflexivity|].
  split; [reflexivity|].
  split; [intros w tr w'; apply run_balanced_simple|].
  split; [reflexivity|].
  split.
  - intros w now w'. simpl.
    destruct (Simple.isRunning (Simple.page w)); [|done]. by intros [= <-].
  - intros startTime res now uuid time s Hok. simpl. by rewrite Hok.
Qed.

(** Three requests of the dashboard settle out of order (an HTTP 500,
    a success, a transport failure), and three of the simple variant
    (an unparsable body, a success, an HTTP 404). *)
Lemma total_is_success_plus_error_witness :
  (∃ w', Dashboard.run Dashboard.start
           [Dashboard.User (Dashboard.Click Dashboard.StartStopButton);
            Dashboard.Tick "a" 0 0 "10:00:00";
            Dashboard.Tick "b" 10 10 "10:00:01";
            Dashboard.Settle "b" (Resolved (Response.mk 500 "Internal Server Error")) 14;
            Dashboard.Tick "c" 20 20 "10:00:02";
            Dashboard.Settle "c" (Resolved (Response.mk 200 "OK")) 23;
            Dashboard.Settle "a" (Rejected (JS.ErrorObj "Failed to fetch")) 31]
         = Some w'
         ∧ Dashboard.stats (Dashboard.page w') = Dashboard.Stat.mk 3 1 2 38
         ∧ Dashboard.balanced (Dashboard.stats (Dashboard.page w')))
  ∧ (∃ w', Simple.run Simple.start
           [Simple.User (Simple.Click Simple.StartStopButton);
            Simple.Tick 0; Simple.Tick 10; Simple.Tick 20;
            Simple.FetchSettled 1 (Resolved (Response.mk 201 "Created")) 12 "u1" "t1";
            Simple.FetchSettled 0 (Resolved (Response.mk 200 "OK")) 15 "u2" "t2";
            Simple.JsonSettled 0 (Simple.ParseFailed (JS.ErrorObj "Unexpected token")) 16 "u3" "t3";
            Simple.JsonSettled 1 (Simple.Parsed (Simple.JValue "7")) 17 "u4" "t4";
            Simple.FetchSettled 2 (Resolved (Response.mk 404 "Not Found")) 25 "u5" "t5"]
         = Some w'
         ∧ Simple.stats (Simple.page w') = Simple.Stat.mk 3 1 2
         ∧ Simple.balanced (Simple.stats (Simple.page w'))).
Proof.
  destruct total_is_success_plus_error as (Hd & _ & _ & Hs & _).
  split.
  - match goal with |- ∃ w', ?run = _ ∧ _ => destruct run as [w'|] eqn:Hrun end;
      [|by vm_compute in Hrun].
    exists w'. split; [done|]. split.
    + vm_compute in Hrun. by injection Hrun as <-.
    + eapply (Hd Dashboard.start); [reflexivity|exact Hrun].
  - match goal with |- ∃ w', ?run = _ ∧ _ => destruct run as [w'|] eqn:Hrun end;
      [|by vm_compute in Hrun].
    exists w'. split; [done|]. split.
    + vm_compute in Hrun. by injection Hrun as <-.
    + eapply (Hs Simple.start); [reflexivity|exact Hrun].
Defined.

(** ** The rolling windows *)

Section windows.
Context {A : Type}.


End windows.

(** ** How a settlement is classified *)

(** C5.  A response whose status is outside the ok range settles the
    request as an error although nothing was thrown.  In the
    dashboard [total] and [error] grow by one, [success] stays, and
    every log entry with the id of the request becomes an error entry
    that records the status code of the response (500 for an HTTP
    500) and the latency; the other entries stay as they are.  In
    the simple variant [total] and [error] grow by one, [success]
    stays, and an error entry whose message carries the status code
    is appended. *)
Theorem non_ok_response_is_error (res : Response.t) :
  Response.ok res = false →
  (∀ fr endTime s,
     let s' := Dashboard.sendRequest_settle fr (Resolved res) endTime s in
     let latency := JS.Math_round (JS.sub endTime (Dashboard.startTime fr)) in
     Dashboard.classify (Resolved res) = Dashboard.Error
     ∧ Dashboard.stats s'
       = Dashboard.Stat.mk
           (Dashboard.Stat.total (Dashboard.stats s) + 1)
           (Dashboard.Stat.success (Dashboard.stats s))
           (Dashboard.Stat.error (Dashboard.stats s) + 1)
           (Dashboard.Stat.totalLatency (Dashboard.stats s) + latency)
     ∧ (∀ i log, Dashboard.logs s !! i = Some log →
          Dashboard.logs s' !! i
          = Some (if decide (Dashboard.Log.id log = Dashboard.requestId fr)
                  then Dashboard.Log.mk
                         (Dashboard.Log.id log) (Dashboard.Log.timestamp log)
                         (Dashboard.Log.startTime log) Dashboard.Error
                         (Some (Response.status res))
                         ("Status: " +:+ JS.show (Response.status res) +:+ " "
                          +:+ Response.statusText res)
                         (Some latency)
                  else log))
     ∧ length (Dashboard.logs s') = length (Dashboard.logs s))
  ∧ (∀ startTime now uuid time s,
       Simple.sendRequest_fetched startTime (Resolved res) now uuid time s
       = (Simple.mkState (Simple.intervalSec s) (Simple.isRunning s)
            (Simple.Stat.mk
               (Simple.Stat.total (Simple.stats s) + 1)
               (Simple.Stat.success (Simple.stats s))
               (Simple.Stat.error (Simple.stats s) + 1))
            (JS.slice (-50)
               (Simple.logs s ++
                [Simple.Log.mk uuid time Simple.Error
                   ("Status: " +:+ JS.show (Response.status res) +:+ " "
                    +:+ Response.statusText res)
                   (JS.Math_round (JS.sub now startTime))])),
          None)).
Proof.
  intros Hok. split.
  - intros fr endTime s. simpl. rewrite Hok. simpl.
    split; [done|]. split; [done|]. split.
    + intros i log Hi. by rewrite (update_log_lookup _ _ _ _ _ Hi).
    + apply update_log_length.
  - intros startTime now uuid time s. simpl. by rewrite Hok.
Qed.

(** An HTTP 500 settles the second of three requests of the
    dashboard. *)
Lemma non_ok_response_is_error_witness :
  Response.ok (Response.mk 500 "Internal Server Error") = false
  ∧ let s := Dashboard.mkState Dashboard.dashboard 1000 true
               (Dashboard.Stat.mk 4 3 1 40)
               [Dashboard.Log.mk "a" "10:00:00" 0 Dashboard.Pending None "Pending..." None;
                Dashboard.Log.mk "b" "10:00:01" 10 Dashboard.Pending None "Pending..." None;
                Dashboard.Log.mk "c" "10:00:02" 20 Dashboard.Pending None "Pending..." None]
               [] in
    let s' := Dashboard.sendRequest_settle (Dashboard.mkFrame "b" 10 10 "10:00:01")
                (Resolved (Response.mk 500 "Internal Server Error")) (JS.div 31 2) s in
    Dashboard.stats s' = Dashboard.Stat.mk 5 3 2 46
    ∧ Dashboard.logs s' !! 1%nat
      = Some (Dashboard.Log.mk "b" "10:00:01" 10 Dashboard.Error (Some 500)
                "Status: 500 Internal Server Error" (Some 6))
    ∧ Dashboard.logs s' !! 0%nat = Dashboard.logs s !! 0%nat.
Proof.
  split; [reflexivity|].
  intros s s'.
  destruct (non_ok_response_is_error (Response.mk 500 "Internal Server Error")
              eq_refl) as [Hd _].
  destruct (Hd (Dashboard.mkFrame "b" 10 10 "10:00:01") (JS.div 31 2) s)
    as (_ & Hstats & Hlogs & _).
  split; [exact Hstats|]. split.
  - exact (Hlogs 1%nat _ eq_refl).
  - exact (Hlogs 0%nat _ eq_refl).
Defined.

(** C6.  A rejected [fetch] always settles the request as an error.
    In the dashboard [total] and [error] grow by one and every entry
    with the id of the request becomes an error entry with status
    code 0 and the message of the thrown [Error], or "Network Error"
    when the thrown value is not an [Error]; in the simple variant
    (whose entries have no status code) such an entry is appended.
    The failure is settled like any other request: the event is
    accepted, [isRunning] keeps its value, and every tick that the
    timer could deliver before can be delivered after. *)
Theorem transport_failure_is_error (error : JS.exn) :
  (∀ fr endTime s,
     let s' := Dashboard.sendRequest_settle fr (Rejected error) endTime s in
     let latency := JS.Math_round (JS.sub endTime (Dashboard.startTime fr)) in
     Dashboard.classify (Rejected error) = Dashboard.Error
     ∧ Dashboard.stats s'
       = Dashboard.Stat.mk
           (Dashboard.Stat.total (Dashboard.stats s) + 1)
           (Dashboard.Stat.success (Dashboard.stats s))
           (Dashboard.Stat.error (Dashboard.stats s) + 1)
           (Dashboard.Stat.totalLatency (Dashboard.stats s) + latency)
     ∧ (∀ i log, Dashboard.logs s !! i = Some log →
          Dashboard.logs s' !! i
          = Some (if decide (Dashboard.Log.id log = Dashboard.requestId fr)
                  then Dashboard.Log.mk
                         (Dashboard.Log.id log) (Dashboard.Log.timestamp log)
                         (Dashboard.Log.startTime log) Dashboard.Error (Some 0)
                         (match error with
                          | JS.ErrorObj message => message
                          | JS.NonError => "Network Error"
                          end)
                         (Some latency)
                  else log))
     ∧ Dashboard.isRunning s' = Dashboard.isRunning s)
  ∧ (∀ w rid fr now,
       Dashboard.inflight w !! rid = Some fr →
       ∃ w', Dashboard.step w (Dashboard.Settle rid (Rejected error) now) = Some w'
             ∧ Dashboard.page w'
               = Dashboard.sendRequest_settle fr (Rejected error) now (Dashboard.page w)
             ∧ ∀ rid' now' date time,
                 is_Some (Dashboard.step w (Dashboard.Tick rid' now' date time)) →
                 is_Some (Dashboard.step w' (Dashboard.Tick rid' now' date time)))
  ∧ (∀ startTime now uuid time s,
       Simple.sendRequest_fetched startTime (Rejected error) now uuid time s
       = (Simple.mkState (Simple.intervalSec s) (Simple.isRunning s)
            (Simple.Stat.mk
               (Simple.Stat.total (Simple.stats s) + 1)
               (Simple.Stat.success (Simple.stats s))
               (Simple.Stat.error (Simple.stats s) + 1))
            (JS.slice (-50)
               (Simple.logs s ++
                [Simple.Log.mk uuid time Simple.Error
                   (match error with
                    | JS.ErrorObj message => message
                    | JS.NonError => "Network Error"
                    end)
                   (JS.Math_round (JS.sub now startTime))])),
          None))
  ∧ (∀ w call startTime now uuid time,
       Simple.inflight w !! call = Some (Simple.AwaitFetch startTime) →
       ∃ w', Simple.step w (Simple.FetchSettled call (Rejected error) now uuid time)
             = Some w'
             ∧ Simple.isRunning (Simple.page w') = Simple.isRunning (Simple.page w)
             ∧ ∀ now', is_Some (Simple.step w (Simple.Tick now')) →
                       is_Some (Simple.step w' (Simple.Tick now'))).
Proof.
  split; [|split; [|split]].
  - intros fr endTime s. simpl.
    split; [done|]. split; [done|]. split; [|done].
    intros i log Hi. rewrite (update_log_lookup _ _ _ _ _ Hi).
    by destruct error.
  - intros w rid fr now Hfr. simpl. rewrite Hfr. eexists. split; [done|].
    split; [done|]. intros rid' now' date time. simpl.
    destruct (Dashboard.isRunning (Dashboard.page w)); simpl; [|by intros [? ?]].
    case_bool_decide; [eauto|by intros [? ?]].
  - intros startTime now uuid time s. simpl. unfold Simple.catch_block.
    by destruct error.
  - intros w call startTime now uuid time Hfr. simpl. rewrite Hfr. simpl.
    eexists. split; [done|]. split; [done|].
    intros now'. simpl.
    destruct (Simple.isRunning (Simple.page w)); [eauto|by intros [? ?]].
Qed.

(** A request of the dashboard fails with "Failed to fetch" while the
    loop runs. *)
Lemma transport_failure_is_error_witness :
  let fr := Dashboard.mkFrame "a" 0 0 "10:00:00" in
  let w := Dashboard.mkWorld
             (Dashboard.mkState Dashboard.dashboard 1000 true
                (Dashboard.Stat.mk 0 0 0 0)
                [Dashboard.Log.mk "a" "10:00:00" 0 Dashboard.Pending None
                   "Pending..." None] [])
             {["a" := fr]} {["a"]} in
  Dashboard.inflight w !! "a" = Some fr
  ∧ ∃ w', Dashboard.step w
            (Dashboard.Settle "a" (Rejected (JS.ErrorObj "Failed to fetch")) 25)
          = Some w'
          ∧ Dashboard.logs (Dashboard.page w')
            = [Dashboard.Log.mk "a" "10:00:00" 0 Dashboard.Error (Some 0)
                 "Failed to fetch" (Some 25)]
          ∧ Dashboard.stats (Dashboard.page w') = Dashboard.Stat.mk 1 0 1 25
          ∧ Dashboard.isRunning (Dashboard.page w') = true.
Proof.
  intros fr w.
  assert (Hfr : Dashboard.inflight w !! "a" = Some fr) by reflexivity.
  split; [exact Hfr|].
  destruct (transport_failure_is_error (JS.ErrorObj "Failed to fetch"))
    as (_ & Hstep & _).
  destruct (Hstep w "a" fr 25 Hfr) as (w' & Hw' & Hpage & _).
  exists w'. split; [exact Hw'|]. rewrite Hpage. repeat split.
Defined.

(** ** The chart *)

(** C7, on the failing input.  When [fetch] rejects, the catch block
    counts the request and settles its entry, and appends no point to
    the chart: the chart is the one before the settlement.  A
    response, ok or not, does append the point of the request, and
    the dispatch of a request appends none. *)
Theorem transport_failure_appends_no_chart_point :
  (∀ fr error endTime s,
     Dashboard.chartData (Dashboard.sendRequest_settle fr (Rejected error) endTime s)
     = Dashboard.chartData s
     ∧ Dashboard.Stat.total
         (Dashboard.stats (Dashboard.sendRequest_settle fr (Rejected error) endTime s))
       = Dashboard.Stat.total (Dashboard.stats s) + 1)
  ∧ (∀ fr res endTime s,
       Dashboard.chartData (Dashboard.sendRequest_settle fr (Resolved res) endTime s)
       = JS.slice (-200)
           (Dashboard.chartData s ++
            [Dashboard.ChartData.mk (Dashboard.timestamp fr)
               (JS.Math_round (JS.sub endTime (Dashboard.startTime fr)))]))
  ∧ (∀ rid now date time s,
       Dashboard.chartData (Dashboard.sendRequest_dispatch rid now date time s).1
       = Dashboard.chartData s)
  ∧ (let fr := Dashboard.mkFrame "a" 0 0 "10:00:00" in
     let w := Dashboard.mkWorld
                (Dashboard.mkState Dashboard.dashboard 1000 true
                   (Dashboard.Stat.mk 0 0 0 0)
                   [Dashboard.Log.mk "a" "10:00:00" 0 Dashboard.Pending None
                      "Pending..." None] [])
                {["a" := fr]} {["a"]} in
     ∃ w', Dashboard.step w
             (Dashboard.Settle "a" (Rejected (JS.ErrorObj "Failed to fetch")) 25)
           = Some w'
           ∧ Dashboard.chartData (Dashboard.page w') = []
           ∧ Dashboard.stats (Dashboard.page w') = Dashboard.Stat.mk 1 0 1 25).
Proof.
  split; [done|]. split.
  - intros fr res endTime s. simpl. by destruct (Response.ok res).
  - split; [done|]. eexists. split; [reflexivity|]. split; reflexivity.
Qed.

(** ** The controls while the loop runs *)

(** C8.  While [isRunning] holds the reset button and the interval
    input are disabled: a click on the reset button and an edit of the
    interval leave the whole state of the page (counters, log, chart,
    interval) as it is, in both variants, and so they leave the page
    of the event loop. *)
Theorem reset_and_interval_blocked_while_running :
  (∀ s parsed,
     Dashboard.isRunning s = true →
     Dashboard.gesture (Dashboard.Click Dashboard.ResetButton) s = s
     ∧ Dashboard.gesture (Dashboard.Edit parsed) s = s)
  ∧ (∀ w g,
       Dashboard.isRunning (Dashboard.page w) = true →
       g = Dashboard.Click Dashboard.ResetButton ∨ (∃ parsed, g = Dashboard.Edit parsed) →
       Dashboard.step w (Dashboard.User g) = Some w)
  ∧ (∀ s parsed,
       Simple.isRunning s = true →
       Simple.gesture (Simple.Click Simple.ResetButton) s = s
       ∧ Simple.gesture (Simple.Edit parsed) s = s)
  ∧ (∀ w g,
       Simple.isRunning (Simple.page w) = true →
       g = Simple.Click Simple.ResetButton ∨ (∃ parsed, g = Simple.Edit parsed) →
       Simple.step w (Simple.User g) = Some w).
Proof.
  split; [|split; [|split]].
  - intros s parsed Hrun. unfold Dashboard.gesture. simpl. by rewrite Hrun.
  - intros [s fl iss] g Hrun Hg. simpl in *. unfold Dashboard.gesture.
    by destruct Hg as [->|[parsed ->]]; simpl; rewrite Hrun.
  - intros s parsed Hrun. unfold Simple.gesture. simpl. by rewrite Hrun.
  - intros [s fl n] g Hrun Hg. simpl in *. unfold Simple.gesture.
    by destruct Hg as [->|[parsed ->]]; simpl; rewrite Hrun.
Qed.

(** A running dashboard with counted requests, a log entry and a
    chart point: neither gesture changes it. *)
Lemma reset_and_interval_blocked_while_running_witness :
  let s := Dashboard.mkState Dashboard.network 250 true
             (Dashboard.Stat.mk 1 1 0 12)
             [Dashboard.Log.mk "a" "10:00:00" 0 Dashboard.Success (Some 200)
                "Success" (Some 12)]
             [Dashboard.ChartData.mk "10:00:00" 12] in
  Dashboard.isRunning s = true
  ∧ Dashboard.gesture (Dashboard.Click Dashboard.ResetButton) s = s
  ∧ Dashboard.gesture (Dashboard.Edit (Some 50)) s = s
  ∧ Dashboard.resetStats s ≠ s.
Proof.
  intros s. split; [reflexivity|].
  destruct reset_and_interval_blocked_while_running as (Hd & _).
  destruct (Hd s (Some 50) eq_refl) as [Hreset Hedit].
  split; [exact Hreset|]. split; [exact Hedit|]. discriminate.
Defined.

(** ** An ok response with an unparsable body (simple variant) *)

(** C10.  In the simple variant an ok response only suspends the call
    at [res.json()], with the page unchanged.  When the body then
    fails to parse, the catch block runs before any success was
    counted: [total] and [error] grow by one, [success] stays, and an
    error entry is appended whose message is the one of the parse
    exception.  The two events are accepted one after the other by
    the event loop. *)
Theorem unparsable_body_is_error (res : Response.t) (error : JS.exn) :
  Response.ok res = true →
  (∀ startTime now uuid time s,
     Simple.sendRequest_fetched startTime (Resolved res) now uuid time s
     = (s, Some (Simple.AwaitJson startTime (JS.Math_round (JS.sub now startTime)))))
  ∧ (∀ startTime latency now uuid time s,
       Simple.sendRequest_parsed startTime latency (Simple.ParseFailed error)
         now uuid time s
       = Simple.mkState (Simple.intervalSec s) (Simple.isRunning s)
           (Simple.Stat.mk
              (Simple.Stat.total (Simple.stats s) + 1)
              (Simple.Stat.success (Simple.stats s))
              (Simple.Stat.error (Simple.stats s) + 1))
           (JS.slice (-50)
              (Simple.logs s ++
               [Simple.Log.mk uuid time Simple.Error
                  (match error with
                   | JS.ErrorObj message => message
                   | JS.NonError => "Network Error"
                   end)
                  (JS.Math_round (JS.sub now startTime))])))
  ∧ (∀ w call startTime now1 uuid1 time1 now2 uuid2 time2,
       Simple.inflight w !! call = Some (Simple.AwaitFetch startTime) →
       ∃ w', Simple.run w
               [Simple.FetchSettled call (Resolved res) now1 uuid1 time1;
                Simple.JsonSettled call (Simple.ParseFailed error) now2 uuid2 time2]
             = Some w'
             ∧ Simple.page w'
               = Simple.sendRequest_parsed startTime
                   (JS.Math_round (JS.sub now1 startTime)) (Simple.ParseFailed error)
                   now2 uuid2 time2 (Simple.page w)
             ∧ Simple.inflight w' !! call = None).
Proof.
  intros Hok. split; [|split].
  - intros startTime now uuid time s. simpl. by rewrite Hok.
  - intros startTime latency now uuid time s. simpl. unfold Simple.catch_block.
    by destruct error.
  - intros w call startTime now1 uuid1 time1 now2 uuid2 time2 Hfr.
    simpl. rewrite Hfr. simpl. rewrite Hok. simpl.
    rewrite lookup_insert_eq. eexists. split; [done|]. split; [done|].
    simpl. apply lookup_delete_eq.
Qed.

(** A 201 response whose body is cut short. *)
Lemma unparsable_body_is_error_witness :
  Response.ok (Response.mk 201 "Created") = true
  ∧ let s := Simple.mkState 1 true (Simple.Stat.mk 2 2 0)
               [Simple.Log.mk "u0" "10:00:00" Simple.Success
                  "ID: 1 - Created successfully" 8] in
    Simple.sendRequest_parsed 100 7
      (Simple.ParseFailed (JS.ErrorObj "Unexpected end of JSON input"))
      (JS.div 215 2) "u1" "10:00:01" s
    = Simple.mkState 1 true (Simple.Stat.mk 3 2 1)
        [Simple.Log.mk "u0" "10:00:00" Simple.Success
           "ID: 1 - Created successfully" 8;
         Simple.Log.mk "u1" "10:00:01" Simple.Error
           "Unexpected end of JSON input" 8].
Proof.
  split; [reflexivity|]. intros s.
  destruct (unparsable_body_is_error (Response.mk 201 "Created")
              (JS.ErrorObj "Unexpected end of JSON input") eq_refl)
    as (_ & Hparsed & _).
  rewrite Hparsed. reflexivity.
Defined.

(** ** The life of a log entry (dashboard) *)

Section lifecycle.
Import Dashboard.
Implicit Types (s : State) (fr : Frame) (r : FetchResult) (w : World)
  (l : Log.t).

Lemma nodup_ids_inj (ls : list Log.t) l1 l2 :
  NoDup (Log.id <$> ls) → l1 ∈ ls → l2 ∈ ls → Log.id l1 = Log.id l2 → l1 = l2.
Proof.
  induction ls as [|l0 ls IH]; simpl; intros Hnd H1 H2 Hid.
  - by apply elem_of_nil in H1.
  - apply NoDup_cons in Hnd as [Hnotin Hnd].
    apply elem_of_cons in H1 as [->|H1]; apply elem_of_cons in H2 as [->|H2];
      auto.
    + destruct Hnotin. rewrite Hid. apply list_elem_of_fmap. eauto.
    + destruct Hnotin. rewrite <- Hid. apply list_elem_of_fmap. eauto.
Qed.

Lemma classify_not_pending r : classify r ≠ Pending.
Proof. by destruct r as [res|e]; simpl; [destruct (Response.ok res)|]. Qed.

(** Where the entries of the log after a step come from. *)
Lemma step_log_origin w e w' l' :
  wf w → step w e = Some w' → l' ∈ logs (page w') →
  (∃ l, l ∈ logs (page w) ∧ Log.id l = Log.id l'
        ∧ (l' = l
           ∨ (Log.status l = Pending
              ∧ ∃ r now, e = Settle (Log.id l) r now
                         ∧ Log.status l' = classify r)))
  ∨ (∃ rid now date time,
       e = Tick rid now date time ∧ (rid ∉ issued w)
       ∧ l' = Log.mk rid time date Pending None "Pending..." None).
Proof.
  intros Hwf. destruct e as [rid now date time|rid r now|g]; simpl.
  - destruct (isRunning (page w)); simpl; [|done].
    case_bool_decide as Hfresh; [|done]. intros [= <-]. simpl. intros Hin.
    eapply elem_of_sublist in Hin; [|apply slice_sublist].
    apply elem_of_app in Hin as [Hin|Hin%list_elem_of_singleton].
    + left. eauto.
    + right. subst l'. eauto 10.
  - destruct (inflight w !! rid) as [fr|] eqn:Hfr; [|done]. intros [= <-].
    simpl. destruct (settle_logs fr r now (page w)) as (code & text & ->).
    destruct (wf_inflight w Hwf _ _ Hfr) as [_ Hrid].
    intros (l & -> & Hin)%list_elem_of_fmap. left. exists l.
    split; [done|]. case_decide as Heq; [|auto].
    split; [done|]. right. split.
    + apply (wf_pending w Hwf l Hin). rewrite Heq, Hrid. eauto.
    + exists r, now. by rewrite Heq, Hrid.
  - intros [= <-]. simpl.
    destruct (gesture_cases g (page w)) as [->|[[v ->]|[[v ->]|[->| ->]]]];
      simpl; intros Hin; try (left; by eauto).
    by apply elem_of_nil in Hin.
Qed.

Lemma step_issued_mono w e w' x : step w e = Some w' → x ∈ issued w → x ∈ issued w'.
Proof.
  destruct e as [rid now date time|rid r now|g]; simpl.
  - destruct (isRunning (page w) && _); [|done]. intros [= <-] Hx. simpl.
    apply elem_of_union. by right.
  - destruct (inflight w !! rid); [|done]. by intros [= <-].
  - by intros [= <-].
Qed.

(** An entry keeps its place or, when it is pending and its own
    request settles, becomes terminal. *)
Lemma step_entry w e w' l l' :
  wf w → step w e = Some w' →
  l ∈ logs (page w) → l' ∈ logs (page w') → Log.id l = Log.id l' →
  l' = l
  ∨ (Log.status l = Pending ∧ Log.status l' ≠ Pending
     ∧ ∃ r now, e = Settle (Log.id l) r now ∧ Log.status l' = classify r).
Proof.
  intros Hwf Hstep Hl Hl' Hid.
  destruct (step_log_origin w e w' l' Hwf Hstep Hl')
    as [(l0 & Hl0 & Hid0 & Hcase)|(rid & now & date & time & -> & Hfresh & ->)].
  - assert (l0 = l) as ->.
    { eapply nodup_ids_inj; eauto using wf_ids_nodup. congruence. }
    destruct Hcase as [?|(Hp & r & now & He & Hst)]; [by left|right].
    split; [done|]. split; [rewrite Hst; apply classify_not_pending|eauto].
  - destruct Hfresh. simpl in Hid. rewrite <- Hid. by apply (wf_ids_issued w).
Qed.

(** An issued id that is not in the log never comes back. *)
Lemma run_id_gone tr : ∀ w w' x,
  wf w → run w tr = Some w' →
  x ∈ issued w → x ∉ (Log.id <$> logs (page w)) →
  x ∉ (Log.id <$> logs (page w')).
Proof.
  induction tr as [|e tr IH]; simpl; intros w w' x Hwf Hrun Hx Hout.
  - by injection Hrun as <-.
  - destruct (step w e) as [w1|] eqn:Hstep; [|done].
    apply (IH w1); eauto using step_wf, step_issued_mono.
    intros (l1 & Hid & Hin)%list_elem_of_fmap.
    destruct (step_log_origin w e w1 l1 Hwf Hstep Hin)
      as [(l0 & Hl0 & Hid0 & _)|(rid & now & date & time & -> & Hfresh & ->)].
    + destruct Hout. apply list_elem_of_fmap. exists l0. split; [congruence|done].
    + simpl in Hid. congruence.
Qed.

(** A settled entry is final. *)
Lemma run_settled_final tr : ∀ w w' l l',
  wf w → run w tr = Some w' →
  l ∈ logs (page w) → Log.status l ≠ Pending →
  l' ∈ logs (page w') → Log.id l' = Log.id l → l' = l.
Proof.
  induction tr as [|e tr IH]; simpl; intros w w' l l' Hwf Hrun Hl Hst Hl' Hid.
  - injection Hrun as <-. eapply nodup_ids_inj; eauto using wf_ids_nodup.
  - destruct (step w e) as [w1|] eqn:Hstep; [|done].
    assert (Hwf1 : wf w1) by eauto using step_wf.
    destruct (decide (Log.id l ∈ Log.id <$> logs (page w1))) as [Hin|Hout].
    + apply list_elem_of_fmap in Hin as (l1 & Hid1 & Hl1).
      destruct (step_entry w e w1 l l1 Hwf Hstep Hl Hl1 Hid1) as [->|[? _]];
        [|done].
      eapply (IH w1); eauto.
    + exfalso. eapply (run_id_gone tr w1 w' (Log.id l)); eauto.
      * eapply step_issued_mono; eauto using wf_ids_issued.
      * apply list_elem_of_fmap. eauto.
Qed.

End lifecycle.

Lemma slice_neg_keeps_last {A} (cap : nat) (l : list A) x :
  (0 < cap)%nat → x ∈ JS.slice (- Z.of_nat cap) (l ++ [x]).
Proof.
  intros Hcap. rewrite slice_neg, length_app by done. simpl.
  rewrite drop_app_le by lia. apply elem_of_app. right. by apply list_elem_of_singleton.
Qed.

(** C9.  In the dashboard variant, on every reachable page:
    - a dispatch appends one entry, pending, under an id that no
      entry of the log carries and that was never issued before;
    - an entry of the log after a step either carries the id of an
      entry that was in the log before the step, or is the pending
      entry of the dispatch that the step performs;
    - over a step an entry stays as it is, unless it is pending and
      the step settles the request of its id: then it takes the
      status success or error that classifies the outcome;
    - the settlement of a request turns the entry of its id, which is
      pending, into such a terminal entry;
    - an entry that is settled is found unchanged, if at all, after
      any further run: it never returns to pending and does not
      change its terminal state;
    - the ids of the log are pairwise distinct, and an id that has
      left the log is never in the log again. *)
Theorem pending_entry_settles_once :
  (∀ w rid now date time w',
     Dashboard.reachable w →
     Dashboard.step w (Dashboard.Tick rid now date time) = Some w' →
     let p := Dashboard.Log.mk rid time date Dashboard.Pending None "Pending..." None in
     (rid ∉ (Dashboard.Log.id <$> Dashboard.logs (Dashboard.page w)))
     ∧ (rid ∉ Dashboard.issued w)
     ∧ Dashboard.logs (Dashboard.page w')
       = JS.slice (-200) (Dashboard.logs (Dashboard.page w) ++ [p])
     ∧ p ∈ Dashboard.logs (Dashboard.page w'))
  ∧ (∀ w e w' l',
       Dashboard.reachable w → Dashboard.step w e = Some w' →
       l' ∈ Dashboard.logs (Dashboard.page w') →
       (∃ l, l ∈ Dashboard.logs (Dashboard.page w)
             ∧ Dashboard.Log.id l = Dashboard.Log.id l')
       ∨ (∃ rid now date time,
            e = Dashboard.Tick rid now date time
            ∧ l' = Dashboard.Log.mk rid time date Dashboard.Pending None
                     "Pending..." None))
  ∧ (∀ w e w' l l',
       Dashboard.reachable w → Dashboard.step w e = Some w' →
       l ∈ Dashboard.logs (Dashboard.page w) →
       l' ∈ Dashboard.logs (Dashboard.page w') →
       Dashboard.Log.id l = Dashboard.Log.id l' →
       l' = l
       ∨ (Dashboard.Log.status l = Dashboard.Pending
          ∧ Dashboard.Log.status l' ≠ Dashboard.Pending
          ∧ ∃ r now, e = Dashboard.Settle (Dashboard.Log.id l) r now
                     ∧ Dashboard.Log.status l' = Dashboard.classify r))
  ∧ (∀ w rid r now w' l,
       Dashboard.reachable w →
       Dashboard.step w (Dashboard.Settle rid r now) = Some w' →
       l ∈ Dashboard.logs (Dashboard.page w) → Dashboard.Log.id l = rid →
       Dashboard.Log.status l = Dashboard.Pending
       ∧ ∃ l', l' ∈ Dashboard.logs (Dashboard.page w')
               ∧ Dashboard.Log.id l' = rid
               ∧ Dashboard.Log.status l' = Dashboard.classify r
               ∧ Dashboard.Log.status l' ≠ Dashboard.Pending)
  ∧ (∀ w tr w' l l',
       Dashboard.reachable w → Dashboard.run w tr = Some w' →
       l ∈ Dashboard.logs (Dashboard.page w) →
       Dashboard.Log.status l ≠ Dashboard.Pending →
       l' ∈ Dashboard.logs (Dashboard.page w') →
       Dashboard.Log.id l' = Dashboard.Log.id l → l' = l)
  ∧ (∀ w, Dashboard.reachable w →
       NoDup (Dashboard.Log.id <$> Dashboard.logs (Dashboard.page w)))
  ∧ (∀ w tr w' x,
       Dashboard.reachable w → Dashboard.run w tr = Some w' →
       x ∈ Dashboard.issued w →
       x ∉ (Dashboard.Log.id <$> Dashboard.logs (Dashboard.page w)) →
       x ∉ (Dashboard.Log.id <$> Dashboard.logs (Dashboard.page w'))).
Proof.
  split; [|split; [|split; [|split; [|split; [|split]]]]].
  - intros w rid now date time w' Hwf%reachable_wf. simpl.
    destruct (Dashboard.isRunning (Dashboard.page w)); simpl; [|done].
    case_bool_decide as Hfresh; [|done]. intros [= <-]. simpl.
    split; [|split; [done|split; [done|]]].
    + intros (l & -> & Hl)%list_elem_of_fmap.
      by apply Hfresh, (Dashboard.wf_ids_issued w).
    + apply (slice_neg_keeps_last 200). lia.
  - intros w e w' l' Hwf%reachable_wf Hstep Hl'.
    destruct (step_log_origin w e w' l' Hwf Hstep Hl')
      as [(l & Hl & Hid & _)|(rid & now & date & time & -> & _ & ->)];
      [left|right]; eauto 10.
  - intros w e w' l l' Hwf%reachable_wf. by apply step_entry.
  - intros w rid r now w' l Hwf%reachable_wf Hstep Hl Hid.
    revert Hstep. simpl.
    destruct (Dashboard.inflight w !! rid) as [fr|] eqn:Hfr; [|done].
    intros [= <-]. simpl.
    destruct (Dashboard.wf_inflight w Hwf _ _ Hfr) as [_ Hrid].
    split.
    { apply (Dashboard.wf_pending w Hwf l Hl). rewrite Hid. eauto. }
    destruct (settle_logs fr r now (Dashboard.page w)) as (code & text & ->).
    eexists. split; [apply list_elem_of_fmap; eexists; split; [reflexivity|exact Hl]|].
    rewrite decide_True by congruence. simpl.
    split; [done|]. split; [done|]. apply classify_not_pending.
  - intros w tr w' l l' Hwf%reachable_wf. by apply run_settled_final.
  - intros w Hwf%reachable_wf. by apply Dashboard.wf_ids_nodup.
  - intros w tr w' x Hwf%reachable_wf. by apply run_id_gone.
Qed.

(** ** Settlements of different requests commute (dashboard) *)

Section commute.
Import Dashboard.
Implicit Types (s : State) (fr : Frame) (r : FetchResult) (w v : World).

Lemma settle_logs_eq fr r endTime s :
  logs (sendRequest_settle fr r endTime s)
  = update_log (requestId fr)
      (settled (classify r) (code_of r) (message_of r)
         (JS.Math_round (JS.sub endTime (startTime fr)))) (logs s).
Proof. destruct r as [res|e]; simpl; [destruct (Response.ok res)|]; done. Qed.




Local Instance agree_equiv : Equivalence agree.
Proof.
  split.
  - by intros w.
  - intros w v [? ? ? ? ?]. by split.
  - intros w v u [? ? ? ? ?] [? ? ? ? ?]. split; congruence.
Qed.








Lemma settle_step w rid fr r now :
  inflight w !! rid = Some fr →
  step w (Settle rid r now)
  = Some (mkWorld (sendRequest_settle fr r now (page w))
            (delete rid (inflight w)) (issued w)).
Proof. intros Hfr. simpl. by rewrite Hfr. Qed.

(** A pending entry settled by its own request becomes the terminal
    entry that the specification expects. *)
Lemma settled_pending rid time date now r endTime :
  settled (classify r) (code_of r) (message_of r)
    (JS.Math_round (JS.sub endTime now))
    (Log.mk rid time date Pending None "Pending..." None)
  = final_entry rid time date now r endTime.
Proof. reflexivity. Qed.

End commute.

(** ** Three requests that settle out of order *)


(** ** Three requests of the simple variant that end out of order *)

Section simple_endings.
Import Simple.






End simple_endings.



(** The claim as the specification words it fails on the simple
    variant.  Three requests are dispatched and the second is
    answered first: the log lists the entry of the second request
    before that of the first, not in dispatch order.  And three
    requests of which one is answered with the body [null] are
    counted as four. *)
Lemma out_of_order_settlement_counterexample :
  (∃ w,
     Simple.run Simple.start
       [Simple.User (Simple.Click Simple.StartStopButton);
        Simple.Tick 0; Simple.Tick 100; Simple.Tick 200;
        Simple.FetchSettled 1 (Resolved (Response.mk 500 "second")) 230 "u1" "t";
        Simple.FetchSettled 0 (Resolved (Response.mk 404 "first")) 250 "u2" "t";
        Simple.FetchSettled 2 (Resolved (Response.mk 503 "third")) 260 "u3" "t"]
     = Some w
     ∧ Simple.Log.message <$> Simple.logs (Simple.page w)
       = ["Status: 500 second"; "Status: 404 first"; "Status: 503 third"]
     ∧ Simple.Log.message <$> Simple.logs (Simple.page w)
       ≠ ["Status: 404 first"; "Status: 500 second"; "Status: 503 third"])
  ∧ (∃ w,
       Simple.run Simple.start
         [Simple.User (Simple.Click Simple.StartStopButton);
          Simple.Tick 0; Simple.Tick 100; Simple.Tick 200;
          Simple.FetchSettled 1 (Resolved (Response.mk 500 "second")) 230 "u1" "t";
          Simple.FetchSettled 0 (Resolved (Response.mk 200 "OK")) 250 "u2" "t";
          Simple.JsonSettled 0 (Simple.Parsed Simple.JNull) 251 "u2" "t";
          Simple.FetchSettled 2 (Resolved (Response.mk 503 "third")) 260 "u3" "t"]
       = Some w
       ∧ Simple.Stat.total (Simple.stats (Simple.page w)) = 4).
Proof.
  split.
  - match goal with |- ∃ w, ?run = _ ∧ _ => destruct run as [w|] eqn:Hrun end;
      [|by vm_compute in Hrun].
    exists w. split; [done|]. vm_compute in Hrun. injection Hrun as <-.
    split; [reflexivity|discriminate].
  - match goal with |- ∃ w, ?run = _ ∧ _ => destruct run as [w|] eqn:Hrun end;
      [|by vm_compute in Hrun].
    exists w. split; [done|]. vm_compute in Hrun. by injection Hrun as <-.
Qed.

(** The entry of a request that settled with an HTTP 500 is found
    unchanged after another settlement and another dispatch. *)
Lemma pending_entry_settles_once_witness :
  ∃ w w',
    Dashboard.run Dashboard.start
      [Dashboard.User (Dashboard.Click Dashboard.StartStopButton);
       Dashboard.Tick "a" 0 1000 "10:00:00"; Dashboard.Tick "b" 100 1100 "10:00:01";
       Dashboard.Settle "b" (Resolved (Response.mk 500 "Internal Server Error")) 230]
    = Some w
    ∧ Dashboard.run w
        [Dashboard.Settle "a" (Resolved (Response.mk 200 "OK")) 250;
         Dashboard.Tick "c" 300 1300 "10:00:03"] = Some w'
    ∧ let l := Dashboard.Log.mk "b" "10:00:01" 1100 Dashboard.Error (Some 500)
                 "Status: 500 Internal Server Error" (Some 130) in
      l ∈ Dashboard.logs (Dashboard.page w)
      ∧ Dashboard.Log.status l ≠ Dashboard.Pending
      ∧ ∀ l', l' ∈ Dashboard.logs (Dashboard.page w') →
              Dashboard.Log.id l' = "b" → l' = l.
Proof.
  destruct pending_entry_settles_once as (_ & _ & _ & _ & Hfinal & _).
  set (tr1 := [Dashboard.User (Dashboard.Click Dashboard.StartStopButton);
               Dashboard.Tick "a" 0 1000 "10:00:00";
               Dashboard.Tick "b" 100 1100 "10:00:01";
               Dashboard.Settle "b"
                 (Resolved (Response.mk 500 "Internal Server Error")) 230]).
  set (tr2 := [Dashboard.Settle "a" (Resolved (Response.mk 200 "OK")) 250;
               Dashboard.Tick "c" 300 1300 "10:00:03"]).
  destruct (Dashboard.run Dashboard.start tr1) as [w|] eqn:Hrun1;
    [|by vm_compute in Hrun1].
  destruct (Dashboard.run Dashboard.start (tr1 ++ tr2)) as [w'|] eqn:Hrun12;
    [|by vm_compute in Hrun12].
  assert (Hrun2 : Dashboard.run w tr2 = Some w').
  { rewrite run_app, Hrun1 in Hrun12. exact Hrun12. }
  assert (Hreach : Dashboard.reachable w) by (eexists; exact Hrun1).
  exists w, w'. split; [reflexivity|]. split; [exact Hrun2|]. intros l.
  assert (Hl : l ∈ Dashboard.logs (Dashboard.page w)).
  { clear Hrun2 Hreach. vm_compute in Hrun1. injection Hrun1 as <-.
    simpl. right. left. }
  split; [exact Hl|]. split; [discriminate|].
  intros l' Hl' Hid. by apply (Hfinal w tr2 w' l l' Hreach Hrun2).
Defined.

(** ** The derived metrics *)




(** * Further properties of the pages *)

(** ** What a run adds to the counters *)

Section counting.

Lemma gesture_keeps_dashboard g s :
  Dashboard.is_reset (Dashboard.User g) = false →
  Dashboard.stats (Dashboard.gesture g s) = Dashboard.stats s
  ∧ Dashboard.logs (Dashboard.gesture g s) = Dashboard.logs s
  ∧ Dashboard.chartData (Dashboard.gesture g s) = Dashboard.chartData s.
Proof.
  unfold Dashboard.gesture.
  destruct (Dashboard.disabled s (Dashboard.target g)); [done|].
  by destruct g as [[]|parsed].
Qed.

Lemma gesture_keeps_simple g s :
  Simple.is_reset (Simple.User g) = false →
  Simple.stats (Simple.gesture g s) = Simple.stats s
  ∧ Simple.logs (Simple.gesture g s) = Simple.logs s.
Proof.
  unfold Simple.gesture.
  destruct (Simple.disabled s (Simple.target g)); [done|].
  by destruct g as [[]|parsed].
Qed.

Lemma succeeded_cases r :
  Dashboard.succeeded r = 1 ∧ Dashboard.classify r = Dashboard.Success
  ∨ Dashboard.succeeded r = 0 ∧ Dashboard.classify r = Dashboard.Error.
Proof.
  unfold Dashboard.succeeded.
  destruct r as [res|e]; simpl; [destruct (Response.ok res)|]; auto.
Qed.

End counting.

(** X1.  Over a run of the dashboard in which the reset button is not
    clicked, [success] grows by the number of settlements that are
    successes, [error] by the number of those that are errors and
    [total] by the number of settlements, whatever else happens in
    between and in whatever order the requests settle. *)
Theorem dashboard_run_counts (tr : list Dashboard.Event) :
  ∀ w w',
    Dashboard.run w tr = Some w' →
    Forall (λ e, Dashboard.is_reset e = false) tr →
    let st := Dashboard.stats (Dashboard.page w) in
    let st' := Dashboard.stats (Dashboard.page w') in
    Dashboard.Stat.success st' = Dashboard.Stat.success st + Dashboard.successes tr
    ∧ Dashboard.Stat.error st' = Dashboard.Stat.error st + Dashboard.errors tr
    ∧ Dashboard.Stat.total st'
      = Dashboard.Stat.total st
        + Z.of_nat (length (filter (λ e, is_Some (Dashboard.settles e)) tr)).
Proof.
  induction tr as [|e tr IH]; intros w w' Hrun Hall; simpl in Hrun.
  - injection Hrun as <-. simpl. lia.
  - apply Forall_cons in Hall as [He Hall].
    destruct (Dashboard.step w e) as [w1|] eqn:Hstep; [|done].
    destruct (IH w1 w' Hrun Hall) as (Hs & Her & Ht).
    cbv zeta in *. rewrite Hs, Her, Ht, filter_cons. clear Hs Her Ht IH Hrun.
    destruct e as [rid now date time|rid r now|g]; simpl in Hstep.
    + destruct (Dashboard.isRunning (Dashboard.page w) && _); [|done].
      injection Hstep as <-. simpl. lia.
    + destruct (Dashboard.inflight w !! rid) as [fr|]; [|done].
      injection Hstep as <-. simpl. rewrite settle_stats.
      destruct (succeeded_cases r) as [[-> ->]|[-> ->]]; simpl; lia.
    + injection Hstep as <-. simpl.
      destruct (gesture_keeps_dashboard g (Dashboard.page w) He) as (-> & _).
      lia.
Qed.

(** Four requests, a stop and a start: two successes and two errors. *)
Lemma dashboard_run_counts_witness :
  let tr := [Dashboard.User (Dashboard.Click Dashboard.StartStopButton);
             Dashboard.Tick "a" 0 0 "10:00:00"; Dashboard.Tick "b" 10 10 "10:00:01";
             Dashboard.Settle "b" (Resolved (Response.mk 204 "No Content")) 14;
             Dashboard.Tick "c" 20 20 "10:00:02"; Dashboard.Tick "d" 30 30 "10:00:03";
             Dashboard.User (Dashboard.Click Dashboard.StartStopButton);
             Dashboard.Settle "d" (Rejected JS.NonError) 31;
             Dashboard.Settle "a" (Resolved (Response.mk 200 "OK")) 35;
             Dashboard.User (Dashboard.Click Dashboard.StartStopButton);
             Dashboard.Settle "c" (Resolved (Response.mk 404 "Not Found")) 40] in
  ∃ w', Dashboard.run Dashboard.start tr = Some w'
        ∧ Dashboard.successes tr = 2 ∧ Dashboard.errors tr = 2
        ∧ Dashboard.Stat.success (Dashboard.stats (Dashboard.page w')) = 2
        ∧ Dashboard.Stat.error (Dashboard.stats (Dashboard.page w')) = 2
        ∧ Dashboard.Stat.total (Dashboard.stats (Dashboard.page w')) = 4.
Proof.
  intros tr.
  destruct (Dashboard.run Dashboard.start tr) as [w'|] eqn:Hrun;
    [|by vm_compute in Hrun].
  exists w'. split; [done|]. split; [reflexivity|]. split; [reflexivity|].
  destruct (dashboard_run_counts tr Dashboard.start w' Hrun) as (Hs & He & Ht).
  { unfold tr. repeat constructor. }
  rewrite Hs, He, Ht. repeat split.
Defined.

(** X2.  Over a run of the simple variant in which the reset button is
    not clicked, [success] grows by the number of parsed bodies and
    [error] by the number of responses that are not ok, of rejected
    fetches, of bodies that fail to parse and of bodies that are
    [null]: a response whose body is [null] is counted twice, once as a
    success and once as an error.  The log holds one more entry for
    each call that ends, up to fifty. *)
Theorem simple_run_counts (tr : list Simple.Event) :
  ∀ w w',
    Simple.run w tr = Some w' →
    Forall (λ e, Simple.is_reset e = false) tr →
    (length (Simple.logs (Simple.page w)) ≤ 50)%nat →
    let st := Simple.stats (Simple.page w) in
    let st' := Simple.stats (Simple.page w') in
    Simple.Stat.success st' = Simple.Stat.success st + Simple.successes tr
    ∧ Simple.Stat.error st' = Simple.Stat.error st + Simple.errors tr
    ∧ Simple.Stat.total st'
      = Simple.Stat.total st + Simple.successes tr + Simple.errors tr
    ∧ length (Simple.logs (Simple.page w'))
      = ((length (Simple.logs (Simple.page w)) + Simple.appended tr) `min` 50)%nat.
Proof.
  assert (Hlen : ∀ (l : list Simple.Log.t) x,
            length (JS.slice (-50) (l ++ [x])) = ((length l + 1) `min` 50)%nat).
  { intros. change (-50) with (- Z.of_nat 50).
    rewrite slice_neg_length, length_app by lia. cbn [length]. lia. }
  induction tr as [|e tr IH]; intros w w' Hrun Hall Hcap; simpl in Hrun.
  - injection Hrun as <-. unfold Simple.appended. simpl. lia.
  - apply Forall_cons in Hall as [He Hall].
    destruct (Simple.step w e) as [w1|] eqn:Hstep; [|done].
    assert (Hcap1 : (length (Simple.logs (Simple.page w1)) ≤ 50)%nat).
    { destruct e as [now|call r now uuid time|call j now uuid time|g];
        simpl in Hstep.
      - destruct (Simple.isRunning (Simple.page w)); [|done]. by injection Hstep as <-.
      - destruct (Simple.inflight w !! call) as [[startTime|startTime latency]|];
          try done.
        destruct r as [res|er]; simpl in Hstep; [destruct (Response.ok res)|];
          injection Hstep as <-; simpl; [done| |]; apply addLog_length.
      - destruct (Simple.inflight w !! call) as [[startTime|startTime latency]|];
          try done.
        injection Hstep as <-. simpl.
        destruct j as [[|id_text]|er]; apply addLog_length.
      - injection Hstep as <-. simpl.
        by destruct (gesture_keeps_simple g (Simple.page w) He) as (_ & ->). }
    destruct (IH w1 w' Hrun Hall Hcap1) as (Hs & Her & Ht & Hl).
    cbv zeta in *. unfold Simple.appended in *.
    rewrite Hs, Her, Ht, Hl, filter_cons. clear Hs Her Ht Hl IH Hrun.
    destruct e as [now|call r now uuid time|call j now uuid time|g];
      simpl in Hstep.
    + destruct (Simple.isRunning (Simple.page w)); [|done].
      injection Hstep as <-. simpl. lia.
    + destruct (Simple.inflight w !! call) as [[startTime|startTime latency]|];
        try done.
      destruct r as [res|er]; simpl in Hstep;
        [destruct (Response.ok res) eqn:Hok|]; injection Hstep as <-; simpl;
        rewrite ?Hok; simpl.
      * lia.
      * rewrite Hlen. lia.
      * rewrite Hlen. lia.
    + destruct (Simple.inflight w !! call) as [[startTime|startTime latency]|];
        try done.
      injection Hstep as <-. simpl.
      destruct j as [[|id_text]|er]; simpl; rewrite Hlen; lia.
    + injection Hstep as <-. simpl.
      destruct (gesture_keeps_simple g (Simple.page w) He) as (-> & ->).
      lia.
Qed.

(** Three requests: a body that is [null], a created record and an
    HTTP 503.  Three calls end and four counts are made. *)
Lemma simple_run_counts_witness :
  let tr := [Simple.User (Simple.Click Simple.StartStopButton);
             Simple.Tick 0; Simple.Tick 10; Simple.Tick 20;
             Simple.FetchSettled 0 (Resolved (Response.mk 200 "OK")) 5 "u1" "t1";
             Simple.FetchSettled 1 (Resolved (Response.mk 201 "Created")) 15 "u2" "t2";
             Simple.JsonSettled 0 (Simple.Parsed Simple.JNull) 6 "u3" "t3";
             Simple.FetchSettled 2 (Resolved (Response.mk 503 "Busy")) 25 "u4" "t4";
             Simple.JsonSettled 1 (Simple.Parsed (Simple.JValue "7")) 16 "u5" "t5"] in
  ∃ w', Simple.run Simple.start tr = Some w'
        ∧ Simple.stats (Simple.page w') = Simple.Stat.mk 4 2 2
        ∧ length (Simple.logs (Simple.page w')) = 3%nat.
Proof.
  intros tr.
  destruct (Simple.run Simple.start tr) as [w'|] eqn:Hrun;
    [|by vm_compute in Hrun].
  exists w'. split; [done|].
  destruct (simple_run_counts tr Simple.start w' Hrun) as (Hs & He & Ht & Hl).
  { unfold tr. repeat constructor. }
  { simpl. lia. }
  split; [|rewrite Hl; reflexivity].
  destruct (Simple.stats (Simple.page w')) as [t s e]. simpl in *.
  rewrite Hs, He, Ht. reflexivity.
Defined.

(** ** The entries of the dashboard log and what the page shows of them *)

Section entries.
Import Dashboard.
Implicit Types (s : State) (fr : Frame) (r : FetchResult) (w : World)
  (l : Log.t).

Lemma settled_consistent r latency l :
  consistent (settled (classify r) (code_of r) (message_of r) latency l).
Proof.
  unfold consistent. destruct r as [res|e]; simpl.
  - destruct (Response.ok res) eqn:Hok; simpl.
    + split; [|eauto]. exists (Response.status res). split; [done|].
      unfold Response.ok in Hok. apply andb_true_iff in Hok as [?%Z.leb_le ?%Z.leb_le].
      lia.
    + split; [|eauto]. exists (Response.status res). split; [done|].
      unfold Response.ok in Hok. intros [?%Z.leb_le ?%Z.leb_le].
      by rewrite andb_false_iff in Hok; destruct Hok; congruence.
  - split; [|eauto]. exists 0. split; [done|lia].
Qed.

Lemma step_consistent w e w' :
  Forall consistent (logs (page w)) → step w e = Some w' →
  Forall consistent (logs (page w')).
Proof.
  intros Hc. destruct e as [rid now date time|rid r now|g]; simpl.
  - destruct (isRunning (page w) && _); [|done]. intros [= <-]. simpl.
    unfold JS.slice. apply Forall_drop.
    apply Forall_app. split; [done|]. by repeat constructor.
  - destruct (inflight w !! rid) as [fr|]; [|done]. intros [= <-]. simpl.
    rewrite settle_logs_eq. unfold update_log. apply Forall_fmap.
    eapply Forall_impl; [exact Hc|]. intros l Hl. simpl.
    case_decide; [apply settled_consistent|done].
  - intros [= <-]. simpl.
    destruct (gesture_cases g (page w)) as [->|[[v ->]|[[v ->]|[->| ->]]]];
      simpl; done || constructor.
Qed.

Lemma run_consistent tr : ∀ w w',
  Forall consistent (logs (page w)) → run w tr = Some w' →
  Forall consistent (logs (page w')).
Proof.
  induction tr as [|e tr IH]; simpl; intros w w' Hc Hrun.
  - by injection Hrun as <-.
  - destruct (step w e) as [w1|] eqn:Hstep; [|done].
    eauto using step_consistent.
Qed.

Lemma show_nonempty n : JS.show n ≠ "".
Proof.
  unfold JS.show. by destruct (Z.to_int n) as [[]|[]].
Qed.

End entries.

Lemma reachable_consistent (w : Dashboard.World) :
  Dashboard.reachable w →
  Forall Dashboard.consistent (Dashboard.logs (Dashboard.page w)).
Proof.
  intros [tr Htr]. eapply run_consistent; [|exact Htr]. constructor.
Qed.

Lemma show_with_unit_not_dots n unit :
  unit = " ms" ∨ unit = "ms" → JS.show n +:+ unit ≠ "...".
Proof.
  intros Hunit. pose proof (show_nonempty n) as Hn.
  destruct (JS.show n) as [|a [|b [|c [|d rest]]]]; [done|..];
    destruct Hunit as [-> | ->]; intros Heq; cbv [String.append] in Heq;
    congruence.
Qed.

(** X3.  On every reachable page of the dashboard the fields of every
    log entry agree with its status: a pending entry has no status
    code and no latency and the message "Pending..."; a success has a
    status code from 200 to 299, a latency and the message "Success";
    an error has a latency and a status code outside that range (zero
    after a transport failure). *)
Theorem log_entries_consistent (w : Dashboard.World) :
  Dashboard.reachable w →
  Forall Dashboard.consistent (Dashboard.logs (Dashboard.page w)).
Proof. apply reachable_consistent. Qed.

(** The log after a success, a transport failure and a dispatch. *)
Lemma log_entries_consistent_witness :
  ∃ w, Dashboard.run Dashboard.start
         [Dashboard.User (Dashboard.Click Dashboard.StartStopButton);
          Dashboard.Tick "a" 0 0 "10:00:00"; Dashboard.Tick "b" 10 10 "10:00:01";
          Dashboard.Settle "a" (Resolved (Response.mk 200 "OK")) 12;
          Dashboard.Settle "b" (Rejected (JS.ErrorObj "Failed to fetch")) 19;
          Dashboard.Tick "c" 20 20 "10:00:02"] = Some w
       ∧ Dashboard.Log.status <$> Dashboard.logs (Dashboard.page w)
         = [Dashboard.Success; Dashboard.Error; Dashboard.Pending]
       ∧ Forall Dashboard.consistent (Dashboard.logs (Dashboard.page w)).
Proof.
  match goal with |- ∃ w, ?run = _ ∧ _ => destruct run as [w|] eqn:Hrun end;
    [|by vm_compute in Hrun].
  exists w. split; [done|].
  assert (Hc : Forall Dashboard.consistent (Dashboard.logs (Dashboard.page w))).
  { apply log_entries_consistent. eexists. exact Hrun. }
  split; [|exact Hc]. clear Hc. vm_compute in Hrun. by injection Hrun as <-.
Defined.

(** X4.  What the dashboard shows of an entry of a reachable page.  The
    status cell of the network view is never empty: it is "Pending"
    for a pending entry, the status code for a success, and for an
    error the status code, or "ERR" when the status code is zero.  The
    time cell and the latency of a log row show "..." exactly for the
    pending entries. *)
Theorem cells_follow_status (w : Dashboard.World) (l : Dashboard.Log.t) :
  Dashboard.reachable w → l ∈ Dashboard.logs (Dashboard.page w) →
  Dashboard.statusCell l ≠ ""
  ∧ match Dashboard.Log.status l with
    | Dashboard.Pending => Dashboard.statusCell l = "Pending"
    | Dashboard.Success =>
        ∃ code, Dashboard.Log.statusCode l = Some code ∧ 200 ≤ code ≤ 299
                ∧ Dashboard.statusCell l = JS.show code
    | Dashboard.Error =>
        ∃ code, Dashboard.Log.statusCode l = Some code
                ∧ Dashboard.statusCell l = if code =? 0 then "ERR" else JS.show code
    end
  ∧ (Dashboard.timeCell l = "..." ↔ Dashboard.Log.status l = Dashboard.Pending)
  ∧ (Dashboard.rowLatency l = "..." ↔ Dashboard.Log.status l = Dashboard.Pending).
Proof.
  intros Hw Hl.
  pose proof (reachable_consistent w Hw) as Hc.
  rewrite Forall_forall in Hc. specialize (Hc l Hl).
  unfold Dashboard.consistent, Dashboard.statusCell, Dashboard.timeCell,
    Dashboard.rowLatency in *.
  destruct (Dashboard.Log.status l).
  - destruct Hc as ((code & Hsc & Hcode) & [lat Hlat] & _).
    rewrite Hsc, Hlat.
    destruct (Z.eqb_spec code 0) as [->|Hne]; [lia|].
    split; [apply show_nonempty|]. split; [eauto|].
    split; (split; [intros Heq|done]);
      by apply show_with_unit_not_dots in Heq; [|auto].
  - destruct Hc as ((code & Hsc & Hcode) & [lat Hlat]).
    rewrite Hsc, Hlat.
    split; [destruct (code =? 0); [done|apply show_nonempty]|].
    split; [eauto|].
    split; (split; [intros Heq|done]);
      by apply show_with_unit_not_dots in Heq; [|auto].
  - destruct Hc as (Hsc & Hlat & _). by rewrite Hlat.
Qed.

(** The cells of a success, of a transport failure and of a pending
    entry. *)
Lemma cells_follow_status_witness :
  ∃ w, Dashboard.run Dashboard.start
         [Dashboard.User (Dashboard.Click Dashboard.StartStopButton);
          Dashboard.Tick "a" 0 0 "10:00:00"; Dashboard.Tick "b" 10 10 "10:00:01";
          Dashboard.Settle "a" (Resolved (Response.mk 200 "OK")) 12;
          Dashboard.Settle "b" (Rejected (JS.ErrorObj "Failed to fetch")) 19;
          Dashboard.Tick "c" 20 20 "10:00:02"] = Some w
       ∧ Dashboard.statusCell <$> Dashboard.logs (Dashboard.page w)
         = ["200"; "ERR"; "Pending"]
       ∧ Dashboard.timeCell <$> Dashboard.logs (Dashboard.page w)
         = ["12 ms"; "9 ms"; "..."]
       ∧ ∀ l, l ∈ Dashboard.logs (Dashboard.page w) → Dashboard.statusCell l ≠ "".
Proof.
  match goal with |- ∃ w, ?run = _ ∧ _ => destruct run as [w|] eqn:Hrun end;
    [|by vm_compute in Hrun].
  exists w. split; [done|].
  assert (Hc : ∀ l, l ∈ Dashboard.logs (Dashboard.page w) →
                    Dashboard.statusCell l ≠ "").
  { intros l Hl. apply (cells_follow_status w l); [eexists; exact Hrun|exact Hl]. }
  split; [|split; [|exact Hc]]; clear Hc; vm_compute in Hrun;
    by injection Hrun as <-.
Defined.

(** ** Pending entries, settled entries and the counters *)

Section accounting.
Import Dashboard.
Implicit Types (s : State) (fr : Frame) (r : FetchResult) (w : World)
  (l : Log.t).

Lemma pending_le_inflight w :
  wf w → (pendingCount (logs (page w)) ≤ size (inflight w))%nat.
Proof.
  intros Hwf. unfold pendingCount.
  set (P := filter (λ l, Log.status l = Pending) (logs (page w))).
  assert (Hnd : NoDup (Log.id <$> P)).
  { eapply sublist_NoDup; [apply (wf_ids_nodup w Hwf)|].
    apply fmap_sublist, sublist_filter. }
  rewrite <- (length_fmap Log.id), <- (size_list_to_set (C := gset string)) by done.
  rewrite <- size_dom. apply subseteq_size.
  intros x (l & -> & [Hp Hl]%list_elem_of_filter)%elem_of_list_to_set%list_elem_of_fmap.
  apply elem_of_dom. by apply (wf_pending w Hwf).
Qed.

Lemma settledCount_sublist (k l' : list Log.t) :
  k `sublist_of` l' → (settledCount k ≤ settledCount l')%nat.
Proof.
  unfold settledCount.
  induction 1 as [|x k l' Hsub IH|x k l' Hsub IH]; [done|..];
    rewrite ?filter_cons; repeat case_decide; simpl; lia.
Qed.

Lemma settledCount_update rid upd (ls : list Log.t) :
  NoDup (Log.id <$> ls) → (∀ l, Log.id (upd l) = Log.id l) →
  (settledCount (update_log rid upd ls) ≤ settledCount ls + 1)%nat.
Proof.
  intros Hnd Hupd. induction ls as [|a ls IH]; [unfold settledCount; simpl; lia|].
  simpl in Hnd. apply NoDup_cons in Hnd as [Hout Hnd].
  unfold update_log. rewrite fmap_cons. fold (update_log rid upd ls).
  destruct (decide (Log.id a = rid)) as [<-|Hne].
  - rewrite update_log_absent by done. unfold settledCount.
    rewrite !filter_cons. repeat case_decide; simpl; lia.
  - specialize (IH Hnd). unfold settledCount in *.
    rewrite !filter_cons. repeat case_decide; simpl; lia.
Qed.

Lemma step_accounted w e w' :
  wf w → accounted (page w) → step w e = Some w' → accounted (page w').
Proof.
  intros Hwf (Hlog & Hchart & Hs & He).
  destruct e as [rid now date time|rid r now|g]; simpl.
  - destruct (isRunning (page w) && _); [|done]. intros [= <-].
    split; [|done]. simpl.
    etrans; [|exact Hlog]. apply inj_le.
    etrans; [apply settledCount_sublist, slice_sublist|].
    unfold settledCount. rewrite filter_app, length_app.
    rewrite filter_cons_False by (simpl; by intros []). simpl. lia.
  - destruct (inflight w !! rid) as [fr|]; [|done]. intros [= <-].
    unfold accounted. simpl. rewrite settle_stats, settle_logs_eq.
    pose proof (settledCount_update (requestId fr)
                  (settled (classify r) (code_of r) (message_of r)
                     (JS.Math_round (JS.sub now (startTime fr))))
                  (logs (page w)) (wf_ids_nodup w Hwf) (λ _, eq_refl)) as Hupd.
    assert (Hch : (length (chartData (sendRequest_settle fr r now (page w)))
                   ≤ length (chartData (page w)) + 1)%nat).
    { destruct r as [res|er]; simpl; [|lia].
      assert (length (JS.slice (-200) (chartData (page w) ++
                [ChartData.mk (timestamp fr) (JS.Math_round (JS.sub now (startTime fr)))]))
              ≤ length (chartData (page w)) + 1)%nat.
      { etrans; [apply sublist_length, slice_sublist|].
        rewrite length_app. simpl. lia. }
      by destruct (Response.ok res). }
    destruct (classify r); simpl; lia.
  - intros [= <-]. simpl. unfold accounted.
    destruct (gesture_cases g (page w)) as [->|[[v ->]|[[v ->]|[->| ->]]]];
      simpl; try done.
Qed.

Lemma run_accounted tr : ∀ w w',
  wf w → accounted (page w) → run w tr = Some w' → accounted (page w').
Proof.
  induction tr as [|e tr IH]; simpl; intros w w' Hwf Hacc Hrun.
  - by injection Hrun as <-.
  - destruct (step w e) as [w1|] eqn:Hstep; [|done].
    eauto using step_accounted, step_wf.
Qed.

End accounting.

(** X5.  On every reachable page of the dashboard the number of
    pending entries, which the toolbar of the network view shows as
    "pending", is at most the number of requests in flight. *)
Theorem pending_count_at_most_in_flight (w : Dashboard.World) :
  Dashboard.reachable w →
  (Dashboard.pendingCount (Dashboard.logs (Dashboard.page w))
   ≤ size (Dashboard.inflight w))%nat.
Proof. intros Hw. by apply pending_le_inflight, reachable_wf. Qed.

(** Two requests in flight, one of them wiped from the log by a reset
    while the loop was stopped. *)
Lemma pending_count_at_most_in_flight_witness :
  ∃ w, Dashboard.run Dashboard.start
         [Dashboard.User (Dashboard.Click Dashboard.StartStopButton);
          Dashboard.Tick "a" 0 0 "10:00:00";
          Dashboard.User (Dashboard.Click Dashboard.StartStopButton);
          Dashboard.User (Dashboard.Click Dashboard.ResetButton);
          Dashboard.User (Dashboard.Click Dashboard.StartStopButton);
          Dashboard.Tick "b" 10 10 "10:00:01"] = Some w
       ∧ Dashboard.pendingCount (Dashboard.logs (Dashboard.page w)) = 1%nat
       ∧ size (Dashboard.inflight w) = 2%nat
       ∧ (Dashboard.pendingCount (Dashboard.logs (Dashboard.page w))
          ≤ size (Dashboard.inflight w))%nat.
Proof.
  match goal with |- ∃ w, ?run = _ ∧ _ => destruct run as [w|] eqn:Hrun end;
    [|by vm_compute in Hrun].
  exists w. split; [done|].
  assert (Hle : (Dashboard.pendingCount (Dashboard.logs (Dashboard.page w))
                 ≤ size (Dashboard.inflight w))%nat).
  { apply pending_count_at_most_in_flight. eexists. exact Hrun. }
  split; [|split; [|exact Hle]]; clear Hle; vm_compute in Hrun;
    injection Hrun as <-; reflexivity.
Defined.

(** X6.  On every reachable page of the dashboard the counters account
    for what the page shows: the log has at most [total] settled
    entries, the chart has at most [total] points, and [success] and
    [error] are not negative. *)
Theorem counters_account_for_log_and_chart (w : Dashboard.World) :
  Dashboard.reachable w → Dashboard.accounted (Dashboard.page w).
Proof.
  intros [tr Htr]. eapply run_accounted; [apply start_wf| |exact Htr].
  unfold Dashboard.accounted, Dashboard.settledCount. simpl. lia.
Qed.

(** Two responses and a transport failure: three requests counted,
    three settled entries, two chart points. *)
Lemma counters_account_for_log_and_chart_witness :
  ∃ w, Dashboard.run Dashboard.start
         [Dashboard.User (Dashboard.Click Dashboard.StartStopButton);
          Dashboard.Tick "a" 0 0 "10:00:00"; Dashboard.Tick "b" 10 10 "10:00:01";
          Dashboard.Tick "c" 20 20 "10:00:02";
          Dashboard.Settle "a" (Resolved (Response.mk 200 "OK")) 12;
          Dashboard.Settle "b" (Rejected (JS.ErrorObj "Failed to fetch")) 19;
          Dashboard.Settle "c" (Resolved (Response.mk 500 "Down")) 28] = Some w
       ∧ Dashboard.settledCount (Dashboard.logs (Dashboard.page w)) = 3%nat
       ∧ length (Dashboard.chartData (Dashboard.page w)) = 2%nat
       ∧ Dashboard.Stat.total (Dashboard.stats (Dashboard.page w)) = 3
       ∧ Dashboard.accounted (Dashboard.page w).
Proof.
  match goal with |- ∃ w, ?run = _ ∧ _ => destruct run as [w|] eqn:Hrun end;
    [|by vm_compute in Hrun].
  exists w. split; [done|].
  assert (Hacc : Dashboard.accounted (Dashboard.page w)).
  { apply counters_account_for_log_and_chart. eexists. exact Hrun. }
  split; [|split; [|split; [|exact Hacc]]]; clear Hacc; vm_compute in Hrun;
    injection Hrun as <-; reflexivity.
Defined.

(** ** Requests whose entry has left the log, and the rolling of the window *)

Section window.
Import Dashboard.
Implicit Types (s : State) (fr : Frame) (r : FetchResult) (w : World)
  (l : Log.t).

Lemma run_dispatches tr : ∀ w w',
  wf w → run w tr = Some w' →
  Forall (λ e, settles e = None ∧ is_reset e = false) tr →
  logs (page w') = JS.slice (-200) (logs (page w) ++ (tr ≫= dispatched))
  ∧ stats (page w') = stats (page w)
  ∧ chartData (page w') = chartData (page w).
Proof.
  change (-200) with (- Z.of_nat 200).
  induction tr as [|e tr IH]; simpl; intros w w' Hwf Hrun Hall.
  - injection Hrun as <-. rewrite app_nil_r, slice_neg_fits; [done|lia|].
    apply (wf_logs_cap w Hwf).
  - apply Forall_cons in Hall as [[Hs Hr] Hall].
    destruct (step w e) as [w1|] eqn:Hstep; [|done].
    destruct (IH w1 w' (step_wf _ _ _ Hwf Hstep) Hrun Hall) as (-> & -> & ->).
    clear IH Hrun. destruct e as [rid now date time|rid r now|g]; [|done|];
      simpl in Hstep.
    + destruct (isRunning (page w) && _); [|done]. injection Hstep as <-.
      simpl. change (-200) with (- Z.of_nat 200).
      rewrite slice_neg_slice_app by lia. by rewrite <- app_assoc.
    + injection Hstep as <-. simpl.
      by destruct (gesture_keeps_dashboard g (page w) Hr) as (-> & -> & ->).
Qed.

End window.

(** X7.  A request of the dashboard can settle after its entry has
    left the log, wiped by a reset while the loop was stopped or
    pushed out by later dispatches.  The settlement is then accepted
    and counted, and the log is left as it is: the update by id finds
    no entry and creates none. *)
Theorem late_settlement_is_counted_not_logged
    (w : Dashboard.World) (rid : string) (fr : Dashboard.Frame)
    (r : FetchResult) (now : spec_float) :
  Dashboard.reachable w →
  Dashboard.inflight w !! rid = Some fr →
  rid ∉ (Dashboard.Log.id <$> Dashboard.logs (Dashboard.page w)) →
  ∃ w', Dashboard.step w (Dashboard.Settle rid r now) = Some w'
        ∧ Dashboard.logs (Dashboard.page w') = Dashboard.logs (Dashboard.page w)
        ∧ Dashboard.Stat.total (Dashboard.stats (Dashboard.page w'))
          = Dashboard.Stat.total (Dashboard.stats (Dashboard.page w)) + 1
        ∧ Dashboard.Stat.success (Dashboard.stats (Dashboard.page w'))
          = Dashboard.Stat.success (Dashboard.stats (Dashboard.page w))
            + Dashboard.succeeded r.
Proof.
  intros Hwf%reachable_wf Hfr Hout.
  destruct (Dashboard.wf_inflight w Hwf _ _ Hfr) as [_ Hrid].
  rewrite (settle_step w rid fr r now Hfr). eexists. split; [done|]. simpl.
  rewrite settle_logs_eq, Hrid, update_log_absent by done.
  rewrite settle_stats. split; [done|].
  destruct (succeeded_cases r) as [[-> ->]|[-> ->]]; simpl; split; lia.
Qed.

(** A request is dispatched, the loop is stopped and the page reset;
    then the response arrives. *)
Lemma late_settlement_is_counted_not_logged_witness :
  ∃ w w',
    Dashboard.run Dashboard.start
      [Dashboard.User (Dashboard.Click Dashboard.StartStopButton);
       Dashboard.Tick "a" 0 0 "10:00:00";
       Dashboard.User (Dashboard.Click Dashboard.StartStopButton);
       Dashboard.User (Dashboard.Click Dashboard.ResetButton)] = Some w
    ∧ Dashboard.inflight w !! "a" = Some (Dashboard.mkFrame "a" 0 0 "10:00:00")
    ∧ Dashboard.logs (Dashboard.page w) = []
    ∧ Dashboard.step w (Dashboard.Settle "a" (Resolved (Response.mk 200 "OK")) 12)
      = Some w'
    ∧ Dashboard.logs (Dashboard.page w') = []
    ∧ Dashboard.Stat.total (Dashboard.stats (Dashboard.page w')) = 1.
Proof.
  match goal with |- ∃ w w', ?run = _ ∧ _ => destruct run as [w|] eqn:Hrun end;
    [|by vm_compute in Hrun].
  exists w.
  assert (Hw : Dashboard.reachable w) by (eexists; exact Hrun).
  assert (Hfr : Dashboard.inflight w !! "a"
                = Some (Dashboard.mkFrame "a" 0 0 "10:00:00")).
  { clear Hw. vm_compute in Hrun. injection Hrun as <-. reflexivity. }
  assert (Hlogs : Dashboard.logs (Dashboard.page w) = []).
  { clear Hw Hfr. vm_compute in Hrun. injection Hrun as <-. reflexivity. }
  assert (Hstats : Dashboard.Stat.total (Dashboard.stats (Dashboard.page w)) = 0).
  { clear Hw Hfr Hlogs. vm_compute in Hrun. injection Hrun as <-. reflexivity. }
  destruct (late_settlement_is_counted_not_logged w "a" _
              (Resolved (Response.mk 200 "OK")) 12 Hw Hfr)
    as (w' & Hstep & Hl & Ht & _).
  { rewrite Hlogs. apply not_elem_of_nil. }
  exists w'. split; [done|]. split; [exact Hfr|]. split; [exact Hlogs|].
  split; [exact Hstep|]. split; [by rewrite Hl|]. by rewrite Ht, Hstats.
Defined.

(** X8.  Over a run of the dashboard without settlements and without a
    click on reset, the log is the log before the run followed by the
    pending entries of the dispatches, cut to the last 200, and the
    counters and the chart are unchanged.  After 200 dispatches or
    more nothing of the earlier log remains, whether its entries were
    settled or not. *)
Theorem dispatches_roll_the_window
    (w : Dashboard.World) (tr : list Dashboard.Event) (w' : Dashboard.World) :
  Dashboard.reachable w → Dashboard.run w tr = Some w' →
  Forall (λ e, Dashboard.settles e = None ∧ Dashboard.is_reset e = false) tr →
  Dashboard.logs (Dashboard.page w')
  = JS.slice (-200) (Dashboard.logs (Dashboard.page w) ++ (tr ≫= Dashboard.dispatched))
  ∧ Dashboard.stats (Dashboard.page w') = Dashboard.stats (Dashboard.page w)
  ∧ Dashboard.chartData (Dashboard.page w') = Dashboard.chartData (Dashboard.page w)
  ∧ ((200 ≤ length (tr ≫= Dashboard.dispatched))%nat →
     Dashboard.logs (Dashboard.page w') = JS.slice (-200) (tr ≫= Dashboard.dispatched)).
Proof.
  intros Hwf%reachable_wf Hrun Hall.
  destruct (run_dispatches tr w w' Hwf Hrun Hall) as (Hl & Hs & Hc).
  split; [done|]. split; [done|]. split; [done|].
  intros Hfull. rewrite Hl. change (-200) with (- Z.of_nat 200).
  rewrite !slice_neg, length_app by lia.
  rewrite drop_app_ge by lia. f_equal. lia.
Qed.

(** One request is dispatched and settled, then 200 more are
    dispatched and none of them settles: the settled entry is gone. *)
Lemma dispatches_roll_the_window_witness :
  let ticks := (λ i, Dashboard.Tick (JS.show (Z.of_nat i)) 0 0 "10:00:00")
                 <$> seq 0 200 in
  ∃ w w',
    Dashboard.run Dashboard.start
      [Dashboard.User (Dashboard.Click Dashboard.StartStopButton);
       Dashboard.Tick "a" 0 0 "10:00:00";
       Dashboard.Settle "a" (Resolved (Response.mk 200 "OK")) 12] = Some w
    ∧ Dashboard.run w ticks = Some w'
    ∧ Dashboard.logs (Dashboard.page w')
      = JS.slice (-200) (ticks ≫= Dashboard.dispatched)
    ∧ Dashboard.stats (Dashboard.page w') = Dashboard.stats (Dashboard.page w).
Proof.
  intros ticks.
  match goal with |- ∃ w w', ?run = _ ∧ _ => destruct run as [w|] eqn:Hrun end;
    [|by vm_compute in Hrun].
  exists w.
  assert (Hw : Dashboard.reachable w) by (eexists; exact Hrun).
  destruct (Dashboard.run w ticks) as [w'|] eqn:Hticks.
  2: { clear Hw. vm_compute in Hrun. injection Hrun as <-.
       by vm_compute in Hticks. }
  exists w'.
  destruct (dispatches_roll_the_window w ticks w' Hw Hticks)
    as (_ & Hs & _ & Hl).
  { apply Forall_fmap, Forall_forall. by intros i _. }
  split; [done|]. split; [done|]. split; [|done].
  apply Hl. by vm_compute.
Defined.

(** ** The order of the entries in the windows *)

Section order.





End order.



(** The claim as the specification words it fails for the chart and
    for the log of the simple variant, which are not in the order of
    dispatch.  Two requests are dispatched and the second is answered
    first: the chart holds the point of the second request, with the
    later time, before the point of the first, and the log of the
    simple variant the entry of the second before that of the first. *)
Lemma windows_never_exceed_cap_counterexample :
  (∃ w,
     Dashboard.run Dashboard.start
       [Dashboard.User (Dashboard.Click Dashboard.StartStopButton);
        Dashboard.Tick "a" 0 0 "10:00:00"; Dashboard.Tick "b" 1000 1000 "10:00:01";
        Dashboard.Settle "b" (Resolved (Response.mk 200 "OK")) 1020;
        Dashboard.Settle "a" (Resolved (Response.mk 200 "OK")) 1500] = Some w
     ∧ Dashboard.Log.id <$> Dashboard.logs (Dashboard.page w) = ["a"; "b"]
     ∧ Dashboard.chartData (Dashboard.page w)
       = [Dashboard.ChartData.mk "10:00:01" 20; Dashboard.ChartData.mk "10:00:00" 1500]
     ∧ Dashboard.chartData (Dashboard.page w)
       ≠ [Dashboard.ChartData.mk "10:00:00" 1500; Dashboard.ChartData.mk "10:00:01" 20])
  ∧ (∃ w,
       Simple.run Simple.start
         [Simple.User (Simple.Click Simple.StartStopButton);
          Simple.Tick 0; Simple.Tick 1000;
          Simple.FetchSettled 1 (Resolved (Response.mk 500 "second")) 1020 "u1" "t";
          Simple.FetchSettled 0 (Resolved (Response.mk 404 "first")) 1500 "u2" "t"]
       = Some w
       ∧ Simple.Log.message <$> Simple.logs (Simple.page w)
         = ["Status: 500 second"; "Status: 404 first"]
       ∧ Simple.Log.message <$> Simple.logs (Simple.page w)
         ≠ ["Status: 404 first"; "Status: 500 second"]).
Proof.
  split.
  - match goal with |- ∃ w, ?run = _ ∧ _ => destruct run as [w|] eqn:Hrun end;
      [|by vm_compute in Hrun].
    exists w. split; [done|]. vm_compute in Hrun. injection Hrun as <-.
    split; [reflexivity|]. split; [reflexivity|discriminate].
  - match goal with |- ∃ w, ?run = _ ∧ _ => destruct run as [w|] eqn:Hrun end;
      [|by vm_compute in Hrun].
    exists w. split; [done|]. vm_compute in Hrun. injection Hrun as <-.
    split; [reflexivity|discriminate].
Qed.

(** ** The interval, the log of the simple variant, and the clock *)

Section interval.



End interval.



Section simple_accounting.
Import Simple.

Lemma addLog_grows uuid time status message latency s :
  (length (logs (addLog uuid time status message latency s))
   ≤ S (length (logs s)))%nat.
Proof.
  rewrite addLog_logs. change (-50) with (- Z.of_nat 50).
  rewrite slice_neg_length, length_app by lia. simpl. lia.
Qed.

Lemma catch_block_accounted startTime error endTime uuid time s :
  Z.of_nat (length (logs s)) ≤ Stat.total (stats s) + 1 - 1 →
  0 ≤ Stat.success (stats s) → 0 ≤ Stat.error (stats s) →
  accounted (catch_block startTime error endTime uuid time s).
Proof.
  intros Hl Hs He. unfold accounted, catch_block.
  pose proof (addLog_grows uuid time Error (catch_message error)
                (JS.Math_round (JS.sub endTime startTime)) (setStats count_error s)).
  simpl in *. lia.
Qed.

Lemma step_accounted_simple w e w' :
  accounted (page w) → step w e = Some w' → accounted (page w').
Proof.
  intros (Hl & Hs & He).
  destruct e as [now|call r now uuid time|call j now uuid time|g]; simpl.
  - destruct (isRunning (page w)); [|done]. by intros [= <-].
  - destruct (inflight w !! call) as [[startTime|startTime latency]|]; try done.
    destruct r as [res|err]; simpl.
    + destruct (Response.ok res); intros [= <-]; [done|]. simpl.
      match goal with |- accounted (addLog ?u ?t ?st ?m ?la ?s) =>
        pose proof (addLog_grows u t st m la s) end.
      unfold accounted. simpl in *. lia.
    + intros [= <-]. simpl. apply catch_block_accounted; lia.
  - destruct (inflight w !! call) as [[startTime|startTime latency]|]; try done.
    intros [= <-]. simpl. destruct j as [[|id_text]|err]; simpl.
    + apply catch_block_accounted; simpl; lia.
    + match goal with |- accounted (addLog ?u ?t ?st ?m ?la ?s) =>
        pose proof (addLog_grows u t st m la s) end.
      unfold accounted. simpl in *. lia.
    + apply catch_block_accounted; lia.
  - intros [= <-]. simpl.
    destruct (gesture_cases_simple g (page w)) as [->|[[v ->]|[->| ->]]];
      unfold accounted; simpl; lia.
Qed.

Lemma run_accounted_simple tr : ∀ w w',
  accounted (page w) → run w tr = Some w' → accounted (page w').
Proof.
  induction tr as [|e tr IH]; simpl; intros w w' Hacc Hrun.
  - by injection Hrun as <-.
  - destruct (step w e) as [w1|] eqn:Hstep; [|done].
    eauto using step_accounted_simple.
Qed.

End simple_accounting.

(** X10.  On every reachable page of the simple variant the log holds
    no more entries than [total] counts, and [success] and [error]
    are not negative: an entry is appended only together with a
    count, and a reset empties the log as it zeroes the counters. *)
Theorem simple_log_is_accounted_for (w : Simple.World) :
  Simple.reachable w → Simple.accounted (Simple.page w).
Proof.
  intros [tr Htr]. eapply run_accounted_simple; [|exact Htr].
  unfold Simple.accounted. simpl. lia.
Qed.

(** Two requests: one is answered 503, the body of the other does not
    parse. *)
Lemma simple_log_is_accounted_for_witness :
  ∃ w,
    Simple.run Simple.start
      [Simple.User (Simple.Click Simple.StartStopButton);
       Simple.Tick 0; Simple.Tick 5;
       Simple.FetchSettled 0 (Resolved (Response.mk 503 "Service Unavailable"))
         12 "u1" "10:00:00";
       Simple.FetchSettled 1 (Resolved (Response.mk 200 "OK")) 14 "u2" "10:00:00";
       Simple.JsonSettled 1 (Simple.ParseFailed (JS.ErrorObj "Unexpected token"))
         15 "u3" "10:00:01"] = Some w
    ∧ length (Simple.logs (Simple.page w)) = 2%nat
    ∧ Simple.Stat.total (Simple.stats (Simple.page w)) = 2
    ∧ Simple.accounted (Simple.page w).
Proof.
  match goal with |- ∃ w, ?run = _ ∧ _ => destruct run as [w|] eqn:Hrun end;
    [|by vm_compute in Hrun].
  exists w. split; [done|].
  assert (Hacc : Simple.accounted (Simple.page w)).
  { apply simple_log_is_accounted_for. eexists; exact Hrun. }
  vm_compute in Hrun. injection Hrun as <-. done.
Defined.

(** ** Latencies under a clock that does not run backwards *)

Section clock.
Import Dashboard.

Lemma magnitude_Qpower m e :
  (JS.magnitude m e == inject_Z (Z.pos m) * 2 ^ e)%Q.
Proof.
  destruct e as [|p|p]; unfold JS.magnitude.
  - rewrite Qpower_0_r. ring.
  - rewrite inject_Z_mult, Zpower_Qpower by lia. reflexivity.
  - change (Z.neg p) with (- Z.pos p). change 2%Q with (inject_Z 2).
    rewrite Qpower_opp, <- Zpower_Qpower by lia.
    rewrite Qmake_Qdiv, Pos2Z.inj_pow. reflexivity.
Qed.

Lemma magnitude_pos m e : (0 < JS.magnitude m e)%Q.
Proof.
  rewrite magnitude_Qpower. apply Qmult_lt_0_compat; [reflexivity|].
  by apply Qpower_0_lt.
Qed.

(** Aligning a significand to a smaller exponent keeps the value. *)
Lemma shl_align_spec m e ez :
  ez ≤ e →
  ∃ m', shl_align m e ez = (m', ez) ∧ Z.pos m' = Z.pos m * 2 ^ (e - ez).
Proof.
  intros He. unfold shl_align. destruct (ez - e) as [|k|k] eqn:Hk; [|lia|].
  - assert (e = ez) as -> by lia. exists m. rewrite Z.sub_diag. split; [done|lia].
  - exists (shift_pos k m). split; [done|].
    rewrite shift_pos_correct, Z.pow_pos_fold.
    replace (e - ez) with (Z.pos k) by lia. lia.
Qed.

Lemma magnitude_aligned m e ez m' :
  ez ≤ e → Z.pos m' = Z.pos m * 2 ^ (e - ez) →
  (JS.magnitude m e == JS.magnitude m' ez)%Q.
Proof.
  intros He Hm. rewrite !magnitude_Qpower, Hm, inject_Z_mult.
  rewrite Zpower_Qpower by lia. change (inject_Z 2) with 2%Q.
  rewrite <- Qmult_assoc, <- Qpower_plus by done.
  by replace (e - ez + ez) with e by lia.
Qed.

Lemma magnitude_le_same m1 m2 e :
  (JS.magnitude m1 e <= JS.magnitude m2 e)%Q ↔ Z.pos m1 ≤ Z.pos m2.
Proof.
  rewrite !magnitude_Qpower.
  assert (0 < 2 ^ e)%Q by by apply Qpower_0_lt.
  rewrite Qmult_le_r by done. by rewrite <- Zle_Qle.
Qed.

Lemma Math_round_nonneg m e : 0 ≤ JS.Math_round (S754_finite false m e).
Proof.
  unfold JS.Math_round. destruct (0 <=? e) eqn:He.
  - apply Z.leb_le in He. apply Z.mul_nonneg_nonneg; lia.
  - apply Z.leb_gt in He. apply Z.div_pos; [|lia].
    assert (0 < 2 ^ (- e)) by (apply Z.pow_pos_nonneg; lia). lia.
Qed.

(** Rounding keeps the sign. *)
Lemma round_aux_sign s mx ex lx :
  match binary_round_aux 53 1024 s mx ex lx with
  | S754_finite s' _ _ | S754_zero s' | S754_infinity s' => s' = s
  | S754_nan => True
  end.
Proof.
  unfold binary_round_aux.
  destruct (shr_fexp 53 1024 mx ex lx) as [mrs' e'].
  destruct (shr_fexp 53 1024 _ e' loc_Exact) as [mrs'' e''].
  destruct (shr_m mrs''); [done| |done]. by destruct (_ <=? _).
Qed.

Lemma normalize_nonneg m e :
  0 ≤ m → 0 ≤ JS.Math_round (binary_normalize 53 1024 m e false).
Proof.
  intros Hm. unfold binary_normalize. destruct m as [|m|m]; [done| |lia].
  unfold binary_round. destruct (shl_align _ _ _) as [mz ez].
  pose proof (round_aux_sign false (Z.pos mz) ez loc_Exact) as Hs.
  destruct (binary_round_aux _ _ _ _ _ _) as [| | |s m' e']; try done.
  subst s. apply Math_round_nonneg.
Qed.

(** The rounded difference of a number and one that is not larger
    rounds to an integer that is not negative. *)
Lemma round_nonneg (a b : spec_float) :
  JS.le a b → 0 ≤ JS.Math_round (JS.sub b a).
Proof.
  unfold JS.le, JS.sub. intros Hab.
  destruct b as [sb|sb| |sb mb eb], a as [sa|sa| |sa ma ea]; simpl;
    try done; try (by destruct sa, sb).
  - (* 0 - a *)
    simpl in Hab. pose proof (magnitude_pos ma ea) as Hp.
    destruct sa; simpl; [apply Math_round_nonneg|].
    exfalso. apply (Qlt_irrefl 0). by eapply Qlt_le_trans.
  - (* b - 0 *)
    simpl in Hab. pose proof (magnitude_pos mb eb) as Hp.
    destruct sb; [|apply Math_round_nonneg].
    exfalso. apply (Qlt_irrefl 0). eapply Qlt_le_trans; [exact Hp|].
    apply Qopp_le_compat in Hab. by rewrite Qopp_involutive in Hab.
  - (* b - a *)
    apply normalize_nonneg. simpl in Hab.
    destruct (shl_align_spec mb eb (Z.min eb ea) ltac:(lia)) as (mb' & -> & Hb).
    destruct (shl_align_spec ma ea (Z.min eb ea) ltac:(lia)) as (ma' & -> & Ha).
    simpl.
    pose proof (magnitude_pos ma ea) as Hpa. pose proof (magnitude_pos mb eb) as Hpb.
    destruct sb, sa; simpl in *.
    + apply Qopp_le_compat in Hab. rewrite !Qopp_involutive in Hab.
      rewrite (magnitude_aligned mb eb (Z.min eb ea) mb'),
        (magnitude_aligned ma ea (Z.min eb ea) ma') in Hab
        by (done || lia).
      apply magnitude_le_same in Hab. lia.
    + exfalso. apply (Qlt_irrefl 0). eapply Qlt_le_trans; [exact Hpa|].
      eapply Qle_trans; [exact Hab|]. apply (Qopp_le_compat 0).
      by apply Qlt_le_weak.
    + lia.
    + rewrite (magnitude_aligned mb eb (Z.min eb ea) mb'),
        (magnitude_aligned ma ea (Z.min eb ea) ma') in Hab
        by (done || lia).
      apply magnitude_le_same in Hab. lia.
Qed.

Lemma slice_Forall {A} (P : A → Prop) start (l : list A) :
  Forall P l → Forall P (JS.slice start l).
Proof. apply Forall_drop. Qed.

Lemma settle_latencies fr r endTime s :
  JS.le (startTime fr) endTime →
  latencies_nonneg s → latencies_nonneg (sendRequest_settle fr r endTime s).
Proof.
  intros Hclock%round_nonneg (Ht & Hl & Hc). unfold latencies_nonneg.
  rewrite settle_stats, settle_logs_eq. split; [|split].
  - destruct (classify r); simpl; lia.
  - unfold update_log. apply Forall_fmap. eapply Forall_impl; [exact Hl|].
    intros l Hlat. simpl. destruct (decide (Log.id l = requestId fr)); [|done].
    simpl. by intros latency [= <-].
  - destruct r as [res|e]; simpl; [|done].
    assert (Forall (λ p, 0 ≤ ChartData.latency p)
              (JS.slice (-200) (chartData s ++
                 [ChartData.mk (timestamp fr)
                    (JS.Math_round (JS.sub endTime (startTime fr)))]))).
    { apply slice_Forall, Forall_app. split; [done|]. by constructor. }
    by destruct (Response.ok res).
Qed.

Lemma run_latencies tr : ∀ w w',
  run w tr = Some w' →
  StronglySorted JS.le (tr ≫= reading) →
  (∀ rid fr, inflight w !! rid = Some fr →
     Forall (JS.le (startTime fr)) (tr ≫= reading)) →
  latencies_nonneg (page w) → latencies_nonneg (page w').
Proof.
  induction tr as [|e tr IH]; intros w w' Hrun Hsorted Hfr Hw.
  - by injection Hrun as <-.
  - simpl in Hrun. destruct (step w e) as [w1|] eqn:Hstep; [|done].
    change ((e :: tr) ≫= reading) with (reading e ++ (tr ≫= reading)) in *.
    destruct e as [rid now date time|rid r now|g]; simpl in Hstep, Hsorted, Hfr.
    + destruct (isRunning (page w) && _); [|done]. injection Hstep as <-.
      apply StronglySorted_inv in Hsorted as [Hsorted Hnow].
      apply (IH _ w' Hrun Hsorted); simpl.
      * intros rid' fr' [[_ <-]|[_ Hold]]%lookup_insert_Some; [done|].
        by pose proof (Hfr _ _ Hold) as [_ ?]%Forall_cons.
      * destruct Hw as (Ht & Hl & Hc). split; [done|]. split; [|done].
        apply slice_Forall, Forall_app. split; [done|]. by constructor.
    + destruct (inflight w !! rid) as [fr|] eqn:Hrid; [|done].
      injection Hstep as <-.
      apply StronglySorted_inv in Hsorted as [Hsorted _].
      apply (IH _ w' Hrun Hsorted); simpl.
      * intros rid' fr' [_ Hold]%lookup_delete_Some.
        by pose proof (Hfr _ _ Hold) as [_ ?]%Forall_cons.
      * apply settle_latencies; [|done].
        by pose proof (Hfr _ _ Hrid) as [? _]%Forall_cons.
    + injection Hstep as <-. apply (IH _ w' Hrun Hsorted); simpl; [done|].
      destruct Hw as (Ht & Hl & Hc).
      destruct (gesture_cases g (page w)) as [->|[[v ->]|[[v ->]|[->| ->]]]];
        first [done | by repeat split; simpl; try constructor].
Qed.

End clock.

(** X11.  When the readings of [performance.now()] along a run of the
    dashboard never decrease, no latency on the page is negative:
    not the total, not the latency of a log entry, not that of a
    chart point. *)
Theorem latencies_are_not_negative
    (tr : list Dashboard.Event) (w : Dashboard.World) :
  Dashboard.run Dashboard.start tr = Some w →
  StronglySorted JS.le (tr ≫= Dashboard.reading) →
  Dashboard.latencies_nonneg (Dashboard.page w).
Proof.
  intros Hrun Hsorted.
  apply (run_latencies tr Dashboard.start w Hrun Hsorted); [done|].
  split; [done|]. by split; constructor.
Qed.

(** Two requests, dispatched at 0 and 5 and settled at 12 and 12.4. *)
Lemma latencies_are_not_negative_witness :
  ∃ w,
    Dashboard.run Dashboard.start
      [Dashboard.User (Dashboard.Click Dashboard.StartStopButton);
       Dashboard.Tick "a" 0 0 "10:00:00";
       Dashboard.Tick "b" 5 5 "10:00:00";
       Dashboard.Settle "b" (Resolved (Response.mk 200 "OK")) 12;
       Dashboard.Settle "a" (Rejected JS.NonError) (JS.div 62 5)] = Some w
    ∧ Dashboard.Stat.totalLatency (Dashboard.stats (Dashboard.page w)) = 19
    ∧ Dashboard.latencies_nonneg (Dashboard.page w).
Proof.
  match goal with |- ∃ w, ?run = _ ∧ _ => destruct run as [w|] eqn:Hrun end;
    [|by vm_compute in Hrun].
  exists w. split; [done|].
  assert (Hlat : Dashboard.latencies_nonneg (Dashboard.page w)).
  { apply (latencies_are_not_negative _ w Hrun).
    simpl. repeat constructor; by vm_compute. }
  split; [|done]. clear Hlat. vm_compute in Hrun. by injection Hrun as <-.
Defined.

(** ** Counters as JavaScript numbers *)

Section numbers.

Lemma digits2_size p : digits2_pos p = Pos.size p.
Proof. induction p as [p IH|p IH|]; simpl; by rewrite ?IH. Qed.

(** The number of binary digits of a positive integer. *)
Lemma digits2_bounds p :
  2 ^ (Z.pos (digits2_pos p) - 1) ≤ Z.pos p < 2 ^ Z.pos (digits2_pos p).
Proof.
  rewrite digits2_size.
  pose proof (Pos.size_gt p) as Hgt. pose proof (Pos.size_le p) as Hle.
  apply Pos2Z.pos_lt_pos in Hgt. apply Pos2Z.pos_le_pos in Hle.
  rewrite Pos2Z.inj_pow in Hgt, Hle. rewrite (Pos2Z.inj_xO p) in Hle.
  replace (Z.pos (Pos.size p)) with (Z.pos (Pos.size p) - 1 + 1) in Hle at 1 by lia.
  rewrite Z.pow_add_r, Z.pow_1_r in Hle by lia. lia.
Qed.

Lemma digits2_unique p d :
  2 ^ (d - 1) ≤ Z.pos p < 2 ^ d → Z.pos (digits2_pos p) = d.
Proof.
  intros [Hlo Hhi]. pose proof (digits2_bounds p) as [Hlo' Hhi'].
  destruct (Z.lt_trichotomy (Z.pos (digits2_pos p)) d) as [Hlt|[Heq|Hgt]]; [|done|].
  - assert (2 ^ Z.pos (digits2_pos p) ≤ 2 ^ (d - 1))
      by (apply Z.pow_le_mono_r; lia). lia.
  - assert (2 ^ d ≤ 2 ^ (Z.pos (digits2_pos p) - 1)).
    { apply Z.pow_le_mono_r; [lia|]. lia. }
    lia.
Qed.

(** A float of full precision is left as it is by the rounding to
    binary64. *)
Lemma round_aux_exact s m e :
  Z.pos (digits2_pos m) = 53 → -1074 ≤ e ≤ 971 →
  binary_round_aux 53 1024 s (Z.pos m) e loc_Exact = S754_finite s m e.
Proof.
  intros Hd [Hlo Hhi]. unfold binary_round_aux, shr_fexp, fexp, emin. simpl.
  rewrite Hd.
  replace (Z.max (53 + e - 53) (3 - 1024 - 53) - e) with 0 by lia.
  simpl. rewrite Hd.
  replace (Z.max (53 + e - 53) (3 - 1024 - 53) - e) with 0 by lia.
  simpl. destruct (Z.leb_spec e (1024 - 53)); [done|lia].
Qed.

(** A counter below 2^53 is a JavaScript number: [number] gives the
    float whose value it is. *)
Lemma number_exact (z : positive) :
  Z.pos z < 2 ^ 53 →
  ∃ m e, JS.number (Z.pos z) = S754_finite false m e
         ∧ -52 ≤ e ≤ 0 ∧ Z.pos m = Z.pos z * 2 ^ (- e)
         ∧ Z.pos (digits2_pos m) = 53.
Proof.
  intros Hz. pose proof (digits2_bounds z) as [Hlo Hhi].
  set (d := Z.pos (digits2_pos z)) in *.
  assert (Hd : 1 ≤ d ≤ 53).
  { split; [unfold d; lia|].
    destruct (Z.le_gt_cases d 53) as [|Hgt]; [done|].
    assert (2 ^ 53 ≤ 2 ^ (d - 1)) by (apply Z.pow_le_mono_r; lia). lia. }
  unfold JS.number, binary_normalize, binary_round, shl_align, fexp, emin.
  fold d. replace (Z.max (d + 0 - 53) (3 - 1024 - 53) - 0) with (d - 53) by lia.
  replace (Z.max (d + 0 - 53) (3 - 1024 - 53)) with (d - 53) by lia.
  destruct (d - 53) as [|k|k] eqn:Hk; [|lia|].
  - exists z, 0. rewrite round_aux_exact by (fold d; lia).
    split; [done|]. split; [lia|]. split; [simpl; lia|]. fold d. lia.
  - change (Pos.iter xO z k) with (shift_pos k z).
    assert (Hm : Z.pos (shift_pos k z) = Z.pos z * 2 ^ Z.pos k).
    { rewrite shift_pos_correct, Z.pow_pos_fold. lia. }
    assert (Hdm : Z.pos (digits2_pos (shift_pos k z)) = 53).
    { apply digits2_unique. rewrite Hm.
      replace 53 with (d + Z.pos k) at 2 by lia.
      replace (53 - 1) with (d - 1 + Z.pos k) by lia.
      rewrite !Z.pow_add_r by lia.
      assert (0 < 2 ^ Z.pos k) by (apply Z.pow_pos_nonneg; lia). nia. }
    exists (shift_pos k z), (Z.neg k). rewrite round_aux_exact by (done || lia).
    split; [done|]. split; [lia|]. split; [|done].
    by rewrite Hm.
Qed.

(** [toFixed(0)] of such a number prints the counter. *)
Lemma toFixed_0_number exponential z :
  0 ≤ z < 2 ^ 53 → JS.toFixed exponential 0 (JS.number z) = JS.show z.
Proof.
  intros [Hlo Hhi]. destruct z as [|z|z]; [done| |lia].
  destruct (number_exact z Hhi) as (m & e & -> & He & Hm & _).
  unfold JS.toFixed, JS.integer_part, JS.scaled, JS.fixed.
  assert (Hp : 0 < 2 ^ (- e)) by (apply Z.pow_pos_nonneg; lia).
  destruct (Z.leb_spec 0 e) as [He0|He0].
  - assert (e = 0) as -> by lia. rewrite Hm.
    change (- 0) with 0. change (Z.of_nat 0) with 0.
    rewrite !Z.pow_0_r, !Z.mul_1_r.
    destruct (Z.leb_spec (10 ^ 21) (Z.pos z)); [lia|done].
  - rewrite Hm, Z.div_mul by lia.
    destruct (Z.leb_spec (10 ^ 21) (Z.pos z)); [lia|]. simpl.
    f_equal. change (10 ^ Z.of_nat 0) with 1. rewrite Z.mul_1_r.
    replace (1 - e) with (1 + - e) by lia.
    rewrite Z.pow_add_r, Z.pow_1_r by lia.
    replace (2 * (Z.pos z * 2 ^ (- e)) + 2 ^ (- e))
      with ((2 * Z.pos z + 1) * 2 ^ (- e)) by lia.
    rewrite Z.div_mul_cancel_r by lia.
    by rewrite <- (Z.div_unique (2 * Z.pos z + 1) 2 (Z.pos z) 1) by lia.
Qed.

Lemma div_self m e :
  JS.div (S754_finite false m e) (S754_finite false m e)
  = S754_finite false (2 ^ 52) (-52).
Proof.
  unfold JS.div, SFdiv, SFdiv_core_binary.
  rewrite Z.sub_diag.
  rewrite Z.sub_diag. change (Z.min (fexp 53 1024 0) 0) with (-53).
  change (0 - -53) with 53.
  cbv iota beta zeta.
  rewrite Z.shiftl_mul_pow2 by lia.
  assert (Hdiv : Z.div_eucl (Z.pos m * 2 ^ 53) (Z.pos m) = (2 ^ 53, 0)).
  { pose proof (Z_div_mod (Z.pos m * 2 ^ 53) (Z.pos m) ltac:(lia)) as H.
    destruct (Z.div_eucl _ _) as [q r]. destruct H as [Heq Hr].
    assert (q = 2 ^ 53) as -> by nia. f_equal. lia. }
  rewrite Hdiv.
  assert (Hloc : new_location (Z.pos m) 0 = loc_Exact).
  { unfold new_location, new_location_even, new_location_odd.
    by destruct (Z.even (Z.pos m)). }
  rewrite Hloc. by vm_compute.
Qed.

Lemma rate_of_all exponential n :
  0 < n < 2 ^ 53 →
  JS.toFixed exponential 2
    (JS.mul (JS.div (JS.number n) (JS.number n)) (JS.number 100)) = "100.00".
Proof.
  intros [Hlo Hhi]. destruct n as [|n|n]; try lia.
  destruct (number_exact n Hhi) as (m & e & -> & _).
  rewrite div_self. by vm_compute.
Qed.

Lemma rate_of_none exponential n :
  0 < n < 2 ^ 53 →
  JS.toFixed exponential 2
    (JS.mul (JS.div (JS.number 0) (JS.number n)) (JS.number 100)) = "0.00".
Proof.
  intros [Hlo Hhi]. destruct n as [|n|n]; try lia.
  destruct (number_exact n Hhi) as (m & e & -> & _). by vm_compute.
Qed.

Lemma average_of_none exponential n :
  0 < n < 2 ^ 53 →
  JS.toFixed exponential 2 (JS.div (JS.number 0) (JS.number n)) = "0.00".
Proof.
  intros [Hlo Hhi]. destruct n as [|n|n]; try lia.
  destruct (number_exact n Hhi) as (m & e & -> & _). by vm_compute.
Qed.














End numbers.

(** ** The derived metrics *)




(** The claim as the specification words it fails where the exact
    value lies midway between two hundredths: 23 errors in 160
    requests are 14.375 per cent, which to two places is "14.38", and
    12 ms over 160 requests are 0.075 ms, "0.08"; the page shows
    "14.37" and "0.07". *)
Lemma derived_metrics_two_places_counterexample :
  let exponential (m : positive) (e : Z) := "" in
  let st := Dashboard.Stat.mk 160 137 23 12 in
  Dashboard.errorRate_exact st = "14.38"
  ∧ Dashboard.errorRate exponential st = "14.37"
  ∧ Dashboard.avgLatency_exact st = "0.08"
  ∧ Dashboard.avgLatency exponential st = "0.07"
  ∧ Dashboard.errorRate exponential st ≠ Dashboard.errorRate_exact st
  ∧ Dashboard.avgLatency exponential st ≠ Dashboard.avgLatency_exact st.
Proof. by vm_compute. Qed.

(** X12.  The extremes of the derived metrics, for counters in the
    range where a JavaScript number holds every integer (below 2^53)
    and at least one request counted: the error rate is "0.00" when
    no request failed and "100.00" when every request failed, on both
    pages; the average latency of the dashboard is "0.00" when the
    total latency is 0. *)
Theorem derived_metrics_extremes
    (exponential : positive → Z → string)
    (st : Dashboard.Stat.t) (st' : Simple.Stat.t) :
  (0 < Dashboard.Stat.total st < 2 ^ 53 →
     (Dashboard.Stat.error st = 0 → Dashboard.errorRate exponential st = "0.00")
     ∧ (Dashboard.Stat.error st = Dashboard.Stat.total st →
        Dashboard.errorRate exponential st = "100.00")
     ∧ (Dashboard.Stat.totalLatency st = 0 →
        Dashboard.avgLatency exponential st = "0.00"))
  ∧ (0 < Simple.Stat.total st' < 2 ^ 53 →
     (Simple.Stat.error st' = 0 → Simple.errorRate exponential st' = "0.00")
     ∧ (Simple.Stat.error st' = Simple.Stat.total st' →
        Simple.errorRate exponential st' = "100.00")).
Proof.
  split; intros Ht.
  - unfold Dashboard.errorRate, Dashboard.avgLatency.
    destruct (Z.ltb_spec 0 (Dashboard.Stat.total st)) as [_|?]; [|lia].
    split; [|split].
    + intros ->. by apply rate_of_none.
    + intros ->. by apply rate_of_all.
    + intros ->. by apply average_of_none.
  - unfold Simple.errorRate.
    destruct (Z.ltb_spec 0 (Simple.Stat.total st')) as [_|?]; [|lia].
    split.
    + intros ->. by apply rate_of_none.
    + intros ->. by apply rate_of_all.
Qed.

(** Seven requests that all failed on the dashboard; three that all
    succeeded on the simple page. *)
Lemma derived_metrics_extremes_witness :
  Dashboard.errorRate (λ _ _, "") (Dashboard.Stat.mk 7 0 7 91) = "100.00"
  ∧ Simple.errorRate (λ _ _, "") (Simple.Stat.mk 3 3 0) = "0.00".
Proof.
  pose proof (derived_metrics_extremes (λ _ _, "")
                (Dashboard.Stat.mk 7 0 7 91) (Simple.Stat.mk 3 3 0))
    as [Hd Hs].
  split.
  - apply Hd; [simpl; lia|reflexivity].
  - apply Hs; [simpl; lia|reflexivity].
Defined.

(** X13.  The footer of the network view prints the total latency
    with [toFixed(0)]; for a total in the range where a JavaScript
    number holds every integer this is the decimal numeral of the
    total itself, without a point and without rounding. *)
Theorem total_latency_text_is_exact
    (exponential : positive → Z → string) (st : Dashboard.Stat.t) :
  0 ≤ Dashboard.Stat.totalLatency st < 2 ^ 53 →
  Dashboard.totalLatencyText exponential st
  = JS.show (Dashboard.Stat.totalLatency st).
Proof. apply toFixed_0_number. Qed.

Lemma total_latency_text_is_exact_witness :
  Dashboard.totalLatencyText (λ _ _, "") (Dashboard.Stat.mk 7 0 7 9007199254740991)
  = "9007199254740991".
Proof.
  rewrite total_latency_text_is_exact; [reflexivity|simpl; lia].
Defined.

(** ** The server *)

Section backend.
Import Backend.

Lemma boot_unconfigured env :
  Getenv env "DATABASE_URI" = "" →
  boot env
  = (None, [Slog LevelError "DATABASE_URI environment variable is not set";
            Slog LevelWarn
              "skipping auto migration: database connection is not established"]).
Proof. intros Hdsn. unfold boot, Init. by rewrite Hdsn. Qed.





End backend.

(** X14.  When [DATABASE_URI] is empty or not set, the process never
    reaches the database: [gorm.Open], [AutoMigrate], [DB()] and
    [Ping] are not called and no sample handler runs.  Every request
    to [/sample] is answered 500 with the error
    "database connection is not established", while [/] still
    answers 200 "Hello, World!". *)
Theorem unconfigured_database_is_never_used
    (env : Backend.Env) (reqs : list (Backend.Route * Backend.Conn)) :
  Backend.Getenv env "DATABASE_URI" = "" →
  Forall (λ e, Backend.uses_database e = false) (Backend.main env reqs).2
  ∧ (∀ i r conn, reqs !! i = Some (r, conn) → Backend.guarded r = true →
       (Backend.main env reqs).1 !! i
       = Some (Backend.JSON 500
                 [("error", "database connection is not established")]))
  ∧ (∀ i conn, reqs !! i = Some (Backend.Root, conn) →
       (Backend.main env reqs).1 !! i
       = Some (Backend.Text 200 "Hello, World!")).
Proof.
  intros Hdsn. unfold Backend.main. rewrite (boot_unconfigured env Hdsn).
  simpl. split; [|split].
  - do 2 (constructor; [done|]).
    induction reqs as [|[r conn] reqs IH]; simpl; [constructor|].
    apply Forall_app. split; [|done]. destruct r; by repeat constructor.
  - intros i r conn Hi Hg. rewrite <- list_fmap_compose, list_lookup_fmap, Hi.
    simpl. by destruct r.
  - intros i conn Hi. rewrite <- list_fmap_compose, list_lookup_fmap, Hi.
    done.
Qed.

(** No variable is set; the database itself would answer. *)
Lemma unconfigured_database_is_never_used_witness :
  let env := Backend.mkEnv (λ _, "") (λ _, (Some 1%nat, None)) (λ _, None) in
  let conn := Backend.mkConn (λ _, inl 2%nat) (λ _, None) in
  (Backend.main env [(Backend.SampleGET, conn); (Backend.Root, conn)]).1
  = [Backend.JSON 500 [("error", "database connection is not established")];
     Backend.Text 200 "Hello, World!"].
Proof.
  intros env conn.
  destruct (unconfigured_database_is_never_used env
              [(Backend.SampleGET, conn); (Backend.Root, conn)] eq_refl)
    as (_ & Hsample & Hroot).
  apply list_eq. intros [|[|i]].
  - by rewrite (Hsample 0%nat Backend.SampleGET conn).
  - by rewrite (Hroot 1%nat conn).
  - done.
Defined.




